(** * iceberg.animation.scene: keyframe evaluation, time freezing, the scene
      algebra and the playbook builder

    A shallow embedding of [src/iceberg/animation/scene.py].

    - Python numbers are reached only through the operators the module uses
      ([+], [-], [/], [<], [>], [>=], [max]); they are collected in the
      class [PyNum].  Two instances are given: exact rationals [Qc]
      (Python [int] and [fractions.Fraction] values) and IEEE binary64
      (Python [float]).  General laws are proved on the exact instance;
      statements that are plain unfoldings of the code hold for every
      instance.
    - [Scene.render] mixes an [int] frame rate with [float] times: its
      [int * float], [int(x)] and [int / int] are binary64 operations,
      rounded as IEEE 754 prescribes ([SpecFloat]).
    - Exceptions are values of [exn]; a call that may raise returns
      [result].
    - The visual-object model, [tween], the renderer and the frame sink are
      not part of this module; they enter as interfaces ([Animatable],
      [Drawable], [FindAnimated], [Renderer], [Writer]) over an abstract
      world [W] that stands for the Python heap.
    - A query time, [t] in the source, is written [x]: [t] names the record
      type of each class. *)

From Stdlib Require Import ZArith QArith Qcanon Qround Lqa Lia String List Bool.
From Stdlib Require Import PrimFloat SpecFloat FloatOps FloatAxioms.
Import ListNotations.

Set Warnings "-inexact-float".

(** ** Exceptions and results *)

Inductive exn : Type :=
| AssertionError (msg : string)
| ValueError (msg : string)
| AttributeError (name : string)
| ZeroDivisionError
| OverflowError (msg : string)
| IndexError
| UnboundLocalError.

Inductive result (A : Type) : Type :=
| Ok (a : A)
| Raise (e : exn).

Arguments Ok {A} a.
Arguments Raise {A} e.

Definition rbind {A B} (r : result A) (k : A -> result B) : result B :=
  match r with
  | Ok a => k a
  | Raise e => Raise e
  end.

Definition is_ok {A} (r : result A) : bool :=
  match r with Ok _ => true | Raise _ => false end.

(** [assert cond, msg] *)
Definition py_assert (cond : bool) (msg : string) : result unit :=
  if cond then Ok tt else Raise (AssertionError msg).

(** [xs[i]] for a non-negative [i], and [xs[-1]]. *)
Definition py_index {A} (xs : list A) (i : nat) : result A :=
  match nth_error xs i with
  | Some a => Ok a
  | None => Raise IndexError
  end.

Definition py_last {A} (xs : list A) : result A :=
  match xs with
  | [] => Raise IndexError
  | a :: rest => Ok (last rest a)
  end.

(** [range(n)] *)
Definition py_range (n : Z) : list Z :=
  map Z.of_nat (seq 0 (Z.to_nat n)).

(** ** Computations on the heap *)

Definition State (W A : Type) : Type := W -> A * W.

Definition sret {W A} (a : A) : State W A := fun w => (a, w).

Definition sbind {W A B} (m : State W A) (k : A -> State W B) : State W B :=
  fun w => let (a, w') := m w in k a w'.

Declare Scope py_scope.
Delimit Scope py_scope with py.
Notation "x <- r ;; k" := (rbind r (fun x => k))
  (at level 61, r at next level, right associativity) : py_scope.
Notation "r ;;; k" := (rbind r (fun _ => k))
  (at level 61, right associativity) : py_scope.
Notation "x <~ m ;; k" := (sbind m (fun x => k))
  (at level 61, m at next level, right associativity) : py_scope.
Notation "m ~;; k" := (sbind m (fun _ => k))
  (at level 61, right associativity) : py_scope.

(** ** Python numbers *)

Class PyNum (T : Type) : Type := {
  zero : T;                         (* the literal [0] *)
  add : T -> T -> T;                (* [x + y] *)
  sub : T -> T -> T;                (* [x - y] *)
  truediv : T -> T -> result T;     (* [x / y], raising on a zero divisor *)
  lt : T -> T -> bool;              (* [x < y] *)
  gt : T -> T -> bool;              (* [x > y] *)
  ge : T -> T -> bool               (* [x >= y] *)
}.

(** [sum(xs)]: a left fold of [+] from [0]. *)
Definition py_sum {T} `{PyNum T} (xs : list T) : T :=
  fold_left add xs zero.

(** [max(a, b)]: the first argument unless the second is greater. *)
Definition py_max {T} `{PyNum T} (a b : T) : T :=
  if gt b a then b else a.

(** *** Exact rationals *)

Definition Qc_ltb (x y : Qc) : bool :=
  match (x ?= y)%Qc with Lt => true | _ => false end.

Definition Qc_is_zero (x : Qc) : bool :=
  match (x ?= 0)%Qc with Eq => true | _ => false end.

Definition Qc_truediv (x y : Qc) : result Qc :=
  if Qc_is_zero y then Raise ZeroDivisionError else Ok (x / y)%Qc.

Definition Qc_of_Z (z : Z) : Qc := Q2Qc (inject_Z z).

#[export] Instance Qc_PyNum : PyNum Qc := {
  zero := 0%Qc;
  add := Qcplus;
  sub := Qcminus;
  truediv := Qc_truediv;
  lt := Qc_ltb;
  gt := fun x y => Qc_ltb y x;
  ge := fun x y => negb (Qc_ltb x y)
}.

(** *** IEEE binary64 *)

Definition float_truediv (x y : float) : result float :=
  if PrimFloat.eqb y 0%float then Raise ZeroDivisionError
  else Ok (PrimFloat.div x y).

#[export] Instance float_PyNum : PyNum float := {
  zero := 0%float;
  add := PrimFloat.add;
  sub := PrimFloat.sub;
  truediv := float_truediv;
  lt := PrimFloat.ltb;
  gt := fun x y => PrimFloat.ltb y x;
  ge := fun x y => PrimFloat.leb y x
}.

(** *** [int] and [float] together

    [Scene.render] multiplies an [int] by a [float], truncates a [float] to
    an [int] and divides an [int] by an [int].  A [spec_float] is the sign,
    mantissa and exponent of a binary64 number; [Prim2SF] and [SF2Prim]
    translate. *)

(** [int * float] first converts its [int] operand: to the nearest [float],
    ties to even. *)
Definition float_of_int (z : Z) : result float :=
  match binary_normalize prec emax z 0 false with
  | S754_infinity _ =>
      Raise (OverflowError "int too large to convert to float")
  | rounded => Ok (SF2Prim rounded)
  end.

(** [int(x)]: truncation towards zero. *)
Definition int_of_float (x : float) : result Z :=
  match Prim2SF x with
  | S754_nan => Raise (ValueError "cannot convert float NaN to integer")
  | S754_infinity _ =>
      Raise (OverflowError "cannot convert float infinity to integer")
  | S754_zero _ => Ok 0%Z
  | S754_finite s m e =>
      let magnitude := Z.shiftl (Zpos m) e in
      Ok (if s then (- magnitude)%Z else magnitude)
  end.

(** [a / b] on two [int]s is a [float]: the exact quotient, rounded once
    to the nearest binary64 number, ties to even.  [int_quotient] is that
    number for a non-zero [b]. *)
Definition spec_float_of_int (z : Z) : spec_float :=
  match z with
  | Z0 => S754_zero false
  | Zpos p => S754_finite false p 0
  | Zneg p => S754_finite true p 0
  end.

Definition int_quotient (a b : Z) : float :=
  match a with
  | Z0 => if (b <? 0)%Z then neg_zero else PrimFloat.zero
  | _ => SF2Prim (SFdiv prec emax (spec_float_of_int a) (spec_float_of_int b))
  end.

(** Halfway between the largest [float], [2^1024 - 2^971], and [2^1024]:
    from here on a quotient rounds beyond the largest [float]. *)
Definition overflow_threshold : Z := (2 ^ 1024 - 2 ^ 970)%Z.

Definition int_truediv (a b : Z) : result float :=
  if (b =? 0)%Z then Raise ZeroDivisionError
  else if (overflow_threshold * Z.abs b <=? Z.abs a)%Z
  then Raise (OverflowError "integer division result too large for a float")
  else Ok (int_quotient a b).

(** ** class Animated *)

(** [tween] is imported from [iceberg.animation]; it is the one capability
    of an [Animatable] this module uses. *)
Class Animatable (T D Ease : Type) : Type := {
  tween : D -> D -> T -> Ease -> D
}.

(** A constructor argument typed [Union[Sequence[X], X]]. *)
Inductive scalar_or_seq (A : Type) : Type :=
| Scalar (a : A)
| Sequence (xs : list A).
Arguments Scalar {A} a.
Arguments Sequence {A} xs.

Module Animated.
Section Animated.
Context {T : Type} `{PyNum T} {D Ease : Type} `{Animatable T D Ease}.
Local Open Scope py_scope.

Record t : Type := Animated {
  _states : list D;
  _durations : list T;
  _ease_fns : list Ease;
  _total_duration : T;
  _start_time : T;
  cursor : Z
}.

(** [[x] * (len(states) - 1)]; a negative count gives the empty list. *)
Definition broadcast {A} (x : scalar_or_seq A) (states : list D) : list A :=
  match x with
  | Scalar a => repeat a (length states - 1)
  | Sequence xs => xs
  end.

Definition __init__ (states : list D) (durations : scalar_or_seq T)
    (ease_types : scalar_or_seq Ease) (ease_fns : option (scalar_or_seq Ease))
    (start_time : T) : result t :=
  let ease_fns := match ease_fns with None => ease_types | Some e => e end in
  let durations := broadcast durations states in
  let ease_fns := broadcast ease_fns states in
  py_assert (2 <=? length states)%nat
    "Must have at least two states to animate between." ;;;
  py_assert (length states =? length durations + 1)%nat
    "Every pair of states must have a duration." ;;;
  py_assert (length states =? length ease_fns + 1)%nat
    "Every pair of states must have an ease." ;;;
  Ok (Animated states durations ease_fns
        (add (py_sum durations) start_time) start_time 0).

Definition total_duration (self : t) : T := _total_duration self.

(** The [for i, duration in enumerate(self._durations)] loop.  [bound]
    holds the loop variables [(i, duration)] as last assigned; the result
    is their final binding and the final [time_so_far]. *)
Fixpoint scan (durations : list T) (i : nat) (time_so_far x : T)
    (bound : option (nat * T)) : option (nat * T) * T :=
  match durations with
  | [] => (bound, time_so_far)
  | duration :: rest =>
      if gt (add time_so_far duration) x
      then (Some (i, duration), time_so_far)
      else scan rest (S i) (add time_so_far duration) x (Some (i, duration))
  end.

Definition _get_drawable_at_t (self : t) (x : T) : result D :=
  let x := sub x (_start_time self) in
  if lt x zero then py_index (_states self) 0
  else if ge x (sub (_total_duration self) (_start_time self))
  then py_last (_states self)
  else
    match scan (_durations self) 0 zero x None with
    | (None, _) => Raise UnboundLocalError
    | (Some (i, duration), time_so_far) =>
        progress <- truediv (sub x time_so_far) duration ;;
        a <- py_index (_states self) i ;;
        b <- py_index (_states self) (i + 1) ;;
        ease_fn <- py_index (_ease_fns self) i ;;
        Ok (tween a b progress ease_fn)
    end.

Definition frozen (self : t) (x : option T) : result D :=
  let x := match x with None => _total_duration self | Some x => x end in
  _get_drawable_at_t self x.
End Animated.
Arguments t : clear implicits.
Arguments Animated {T D Ease} _ _ _ _ _ _.
End Animated.

(** ** The collaborators of this module *)

(** The capabilities of a visual object ([iceberg.core.drawable.Drawable])
  that this module calls.  [D] is an object reference and [W] the heap:
  every capability is a computation on [W], since [set_time] mutates the
  object and the others read it. *)
Class Drawable (T D B Canvas W : Type) : Type := {
set_time : D -> T -> State W unit;
get_bounds : D -> State W B;                 (* the [bounds] property *)
get_children : D -> State W (list D);        (* the [children] property *)
draw : D -> Canvas -> State W unit;
crop : D -> B -> State W D
}.

(** [drawable.find_all(lambda d: isinstance(d, Animated))]; [S] is the type
  of the states of the [Animated] objects found. *)
Class FindAnimated (T D S Ease W : Type) : Type := {
find_all_Animated : D -> State W (list (Animated.t T S Ease))
}.

(** [iceberg.Renderer]; [R] is a reference to a renderer.  [Renderer_new]
  is the construction [Renderer()], [renderer_render] the method
  [render(drawable)]. *)
Class Renderer (R D Img W : Type) : Type := {
Renderer_new : State W R;
renderer_render : R -> D -> State W unit;
get_rendered_image : R -> State W Img
}.

(** The writer that [imageio.get_writer(filename, mode="I", fps=fps)]
  returns, used as a context manager; [Wr] is a reference to a writer.
  [get_writer] opens it and enters the context, [writer_exit] is the
  [__exit__] that leaves the context and closes the writer. *)
Class Writer (Wr Img W : Type) : Type := {
get_writer : string -> Z -> State W Wr;
append_data : Wr -> Img -> State W unit;
writer_exit : Wr -> State W unit
}.

Section Duration.
Context {T : Type} `{PyNum T} {D S Ease W : Type}
      `{FindAnimated T D S Ease W}.
Local Open Scope py_scope.

Definition _get_drawable_duration (drawable : D) : State W T :=
  current_animated <~ find_all_Animated drawable ;;
  sret (fold_left
          (fun duration animated =>
             py_max duration (Animated.total_duration animated))
          current_animated zero).
End Duration.

(** ** class Frozen *)

Module Frozen.
Section Frozen.
Context {T : Type} `{PyNum T} {D S B Canvas Ease W : Type}
      `{Drawable T D B Canvas W} `{FindAnimated T D S Ease W}.
Local Open Scope py_scope.

Record t : Type := Frozen {
  _child : D;
  _t : T
}.

Definition __init__ (child : D) (x : option T) : State W t :=
  x <~ match x with
       | None => _get_drawable_duration child
       | Some x => sret x
       end ;;
  sret (Frozen child x).

Definition _time_freeze (self : t) : State W unit :=
  set_time (_child self) (_t self).

Definition bounds (self : t) : State W B :=
  _time_freeze self ~;; get_bounds (_child self).

Definition children (self : t) : State W (list D) :=
  _time_freeze self ~;; get_children (_child self).

Definition draw (self : t) (canvas : Canvas) : State W unit :=
  _time_freeze self ~;; draw (_child self) canvas.
End Frozen.
Arguments t : clear implicits.
Arguments Frozen {T D} _ _.
End Frozen.

(** ** class Scene *)

Module Scene.
Section Algebra.
(** [F] is what a call of the frame function yields: a drawable, or a
    computation on the heap that returns one. *)
Context {T : Type} `{PyNum T} {F : Type}.

Record t : Type := Scene {
  _duration : T;
  _make_frame : T -> F
}.

Definition duration (self : t) : T := _duration self.

Definition make_frame (self : t) (x : T) : F := _make_frame self x.

Definition __add__ (self other : t) : t :=
  let _make_frame (x : T) : F :=
    if lt x (duration self) then make_frame self x
    else make_frame other (sub x (duration self)) in
  Scene (add (duration self) (duration other)) _make_frame.

Definition concat (self scene : t) : t := __add__ self scene.

Definition freeze (self : t) (duration' : T) : t :=
  Scene duration' (fun _ => _make_frame self (duration self)).

Definition reverse (self : t) : t :=
  Scene (duration self) (fun x => make_frame self (sub (duration self) x)).
End Algebra.
Arguments t : clear implicits.
Arguments Scene {T F} _ _.

Section Render.
(** [render] is annotated [fps: int] and hands the scene the [float]
    [frame_index / fps]: the scene it renders has [float] times. *)
Context {D B Canvas R Wr Img W : Type}
        `{Drawable float D B Canvas W} `{Renderer R D Img W}
        `{Writer Wr Img W}.

(** The [for] loop in the [with] block, over the frame indices left.
    [bounds] is the local variable of that name ([None] until the first
    frame).  [appended] lists the frames passed to [append_data] so far;
    the source keeps no such list, the model returns it next to the heap.
    An exception ends the loop with the heap as it then is. *)
Fixpoint render_loop (self : t float (State W D)) (renderer : R) (writer : Wr)
    (fps : Z) (indices : list Z) (bounds : option B) (appended : list Img)
    (w : W) : result (list Img) * W :=
  match indices with
  | [] => (Ok appended, w)
  | frame_index :: rest =>
      match int_truediv frame_index fps with
      | Raise e => (Raise e, w)
      | Ok x =>
          let (frame_drawable, w1) := make_frame self x w in
          let (bounds, w2) :=
            match bounds with
            | None => get_bounds frame_drawable w1
            | Some b => (b, w1)
            end in
          let (frame_drawable, w3) := crop frame_drawable bounds w2 in
          let (_, w4) := renderer_render renderer frame_drawable w3 in
          let (frame_pixels, w5) := get_rendered_image renderer w4 in
          let (_, w6) := append_data writer frame_pixels w5 in
          render_loop self renderer writer fps rest (Some bounds)
                      (appended ++ [frame_pixels]) w6
      end
  end.

(** [renderer] is [None] when the caller passes no renderer.
    [tqdm.trange(total_frames, disable=not progress_bar)] yields the
    indices of [range(total_frames)], with or without the progress bar.
    The writer is closed when the [with] block is left, also by an
    exception. *)
Definition render (self : t float (State W D)) (filename : string)
    (renderer : option R) (fps : Z) (progress_bar : bool) (w : W)
    : result (list Img) * W :=
  match rbind (float_of_int fps)
              (fun f => int_of_float (PrimFloat.mul f (duration self))) with
  | Raise e => (Raise e, w)
  | Ok total_frames =>
      let (renderer, w1) :=
        match renderer with
        | None => Renderer_new w
        | Some r => (r, w)
        end in
      let (writer, w2) := get_writer filename fps w1 in
      let (outcome, w3) :=
        render_loop self renderer writer fps (py_range total_frames)
                    None [] w2 in
      let (_, w4) := writer_exit writer w3 in
      (outcome, w4)
  end.
End Render.
End Scene.


(** ** class Playbook *)

Module Playbook.
Section Playbook.
Context {T : Type} `{PyNum T} {D S B Canvas Ease W : Type}
      `{Drawable T D B Canvas W} `{FindAnimated T D S Ease W}.
Local Open Scope py_scope.

Record t : Type := Playbook {
  _cursor : T;
  _scenes : list (Scene.t T (State W D))
}.

(** [timeline] is the abstract hook a subclass supplies; it runs on the
    fresh object and may call [play], [freeze] and [add_scene]. *)
Definition __init__ (timeline : t -> W -> result (t * W)) (w : W)
    : result (t * W) :=
  timeline (Playbook zero []) w.

Definition combined_scene (self : t) : result (Scene.t T (State W D)) :=
  py_assert (0 <? length (_scenes self))%nat
    "No scenes have been added to the playbook." ;;;
  scene <- py_index (_scenes self) 0 ;;
  Ok (fold_left Scene.__add__ (skipn 1 (_scenes self)) scene).

(** The names this module gives a [Playbook] object: the two instance
    attributes set by [__init__] and the members of the class body.  (What
    [ABC] and [object] add are special names, none of them looked up
    below.) *)
Inductive attribute : Type :=
| attr__cursor | attr__scenes | attr___init__ | attr_combined_scene
| attr_frozen | attr_freeze | attr_add_scene | attr_play | attr_timeline.

Definition attributes : list (string * attribute) :=
  [ ("_cursor", attr__cursor); ("_scenes", attr__scenes);
    ("__init__", attr___init__); ("combined_scene", attr_combined_scene);
    ("frozen", attr_frozen); ("freeze", attr_freeze);
    ("add_scene", attr_add_scene); ("play", attr_play);
    ("timeline", attr_timeline) ]%string.

(** [self.<name>] *)
Definition getattr (name : string) : result attribute :=
  match find (fun entry => String.eqb (fst entry) name) attributes with
  | Some (_, a) => Ok a
  | None => Raise (AttributeError name)
  end.

(** [call0] and [call1] stand for calling a resolved attribute with no
    argument and with one. *)
Definition frozen (call0 : attribute -> result T)
    (call1 : attribute -> T -> result D)
    (self : t) (drawable : D) (x : option T) : result D :=
  x <- match x with
       | None => f <- getattr "_get_drawable_duration" ;; call0 f
       | Some x => Ok x
       end ;;
  g <- getattr "_get_drawable_at_t" ;;
  call1 g x.

Definition freeze (self : t) (duration : T) : result t :=
  if (length (_scenes self) =? 0)%nat
  then Raise (ValueError
                "No scenes have been added to the playbook. So cannot freeze.")
  else
    last_scene <- py_last (_scenes self) ;;
    Ok (Playbook (add (_cursor self) duration)
                 (_scenes self ++ [Scene.freeze last_scene duration])).

Definition add_scene (self : t) (scene : Scene.t T (State W D)) : t :=
  Playbook (add (_cursor self) (Scene.duration scene))
           (_scenes self ++ [scene]).

Definition play (self : t) (drawable : D) (duration : option T)
    : State W t :=
  duration <~ match duration with
              | None => _get_drawable_duration drawable
              | Some d => sret d
              end ;;
  let _make_frame (x : T) : State W D :=
    set_time drawable x ~;; sret drawable in
  let scene := Scene.Scene duration _make_frame in
  sret (Playbook (add (_cursor self) duration) (_scenes self ++ [scene])).
End Playbook.
Arguments t : clear implicits.
End Playbook.

(** ** A drawable that records how it was made

    Keyframes are named; [tween] builds the record of its own call.  It
    serves wherever a concrete [Animatable] is needed. *)

Inductive recorded : Type :=
| Key (name : string)
| Tween (a b : recorded) (progress : Qc) (ease_fn : string).

#[export] Instance recorded_Animatable : Animatable Qc recorded string := {
  tween := Tween
}.

(** ** Numbers as states

    Two more concrete [Animatable]s, whose states are numbers and whose
    [tween] is the linear interpolation of its two states, whatever the
    ease: one over the exact rationals and one over binary64. *)

#[export] Instance Qc_lerp : Animatable Qc Qc unit := {
  tween := fun a b progress _ => (a + (b - a) * progress)%Qc
}.

#[export] Instance float_lerp : Animatable float float unit := {
  tween := fun a b progress _ => (a + (b - a) * progress)%float
}.

(** Modelled from the spec: [tween] is [iceberg.animation.tween], which is
    not part of this module.  The spec calls it the interpolation of two
    states at a progress ratio in [0, 1] under an ease function, a
    reparameterization of [0, 1]; its worked example has the evaluation at
    the start of the first segment equal to the first state.  At progress 0
    the interpolation of two states is the first of them. *)
Definition tween_starts_at_first {T D Ease : Type} `{PyNum T}
    `{Animatable T D Ease} (a b : D) (ease_fn : Ease) : Prop :=
  tween a b zero ease_fn = a.

(** ** A stage with one clock

    A concrete set of collaborators, for running the definitions above.  A
    [clip] carries the [Animated] objects of its subtree and the bounds it
    was cropped to, if any; uncropped, its bounds grow with the time of the
    stage. *)

Record clip : Type := Clip {
  clip_name : string;
  clip_animated : list (Animated.t Qc recorded string);
  clip_crop : option Qc
}.

Record picture : Type := Picture {
  picture_size : Qc;
  picture_of : string;
  picture_time : Qc
}.

Record stage : Type := Stage {
  now : Qc;
  rendered : picture
}.

Definition clip_bounds (d : clip) (w : stage) : Qc :=
  match clip_crop d with
  | Some b => b
  | None => (now w + 1)%Qc
  end.

#[export] Instance clip_Drawable : Drawable Qc clip Qc unit stage := {
  set_time := fun _ x w => (tt, Stage x (rendered w));
  get_bounds := fun d w => (clip_bounds d w, w);
  get_children := fun _ w => ([], w);
  draw := fun _ _ w => (tt, w);
  crop := fun d b w => (Clip (clip_name d) (clip_animated d) (Some b), w)
}.

#[export] Instance clip_FindAnimated
  : FindAnimated Qc clip recorded string stage := {
  find_all_Animated := fun d w => (clip_animated d, w)
}.

Definition empty_stage : stage := Stage 0%Qc (Picture 0%Qc "" 0%Qc).

(** A clip without animation, and the two-second scene that [Playbook.play]
    makes of it: each frame sets the clock and returns the clip. *)
Definition still : clip := Clip "still" [] None.

Definition ticking : Scene.t Qc (State stage clip) :=
  Scene.Scene (Qc_of_Z 2) (fun x => sbind (set_time still x) (fun _ => sret still)).

(** An [Animated] that starts at -3 and lasts one second: its total
    duration is -2. *)
Definition early : Animated.t Qc recorded string :=
  Animated.Animated [Key "A"; Key "B"] [Qc_of_Z 1] ["ease"%string]
                    (Qc_of_Z 1 + Qc_of_Z (-3))%Qc (Qc_of_Z (-3)) 0.

(** ** A studio

    Collaborators for [Scene.render], on [float] times.  A [cel] is a
    drawable: uncropped, its bounds grow with the clock of the studio.  The
    studio counts the renderers constructed, keeps what was rendered last,
    and holds one video file: whether its writer is open, and the frames
    appended to it. *)

Record cel : Type := Cel {
  cel_name : string;
  cel_crop : option float
}.

Record raster : Type := Raster {
  raster_size : float;
  raster_of : string;
  raster_time : float
}.

Record studio : Type := Studio {
  clock : float;
  renderers : nat;
  canvas : raster;
  writer_open : bool;
  video : list raster
}.

Definition cel_bounds (d : cel) (w : studio) : float :=
  match cel_crop d with
  | Some b => b
  | None => (clock w + 1)%float
  end.

#[export] Instance cel_Drawable : Drawable float cel float unit studio := {
  set_time := fun _ x w =>
    (tt, Studio x (renderers w) (canvas w) (writer_open w) (video w));
  get_bounds := fun d w => (cel_bounds d w, w);
  get_children := fun _ w => ([], w);
  draw := fun _ _ w => (tt, w);
  crop := fun d b w => (Cel (cel_name d) (Some b), w)
}.

#[export] Instance studio_Renderer : Renderer unit cel raster studio := {
  Renderer_new := fun w =>
    (tt, Studio (clock w) (S (renderers w)) (canvas w) (writer_open w)
                (video w));
  renderer_render := fun _ d w =>
    (tt, Studio (clock w) (renderers w)
                (Raster (cel_bounds d w) (cel_name d) (clock w))
                (writer_open w) (video w));
  get_rendered_image := fun _ w => (canvas w, w)
}.

#[export] Instance studio_Writer : Writer string raster studio := {
  get_writer := fun filename _ w =>
    (filename, Studio (clock w) (renderers w) (canvas w) true []);
  append_data := fun _ frame_pixels w =>
    (tt, Studio (clock w) (renderers w) (canvas w) (writer_open w)
                (video w ++ [frame_pixels]));
  writer_exit := fun _ w =>
    (tt, Studio (clock w) (renderers w) (canvas w) false (video w))
}.

Definition empty_studio : studio :=
  Studio 0%float 0 (Raster 0%float "" 0%float) false [].

(** The scene that [Playbook.play] makes of a cel: each frame sets the
    clock and returns the cel. *)
Definition take : cel := Cel "take" None.

Definition rolling (duration : float) : Scene.t float (State studio cel) :=
  Scene.Scene duration (fun x => sbind (set_time take x) (fun _ => sret take)).

(** ** The rendering loop in the words of the specification *)

(** [floor(x)] of a [float]. *)
Definition float_floor (x : float) : result Z :=
  match Prim2SF x with
  | S754_nan => Raise (ValueError "cannot convert float NaN to integer")
  | S754_infinity _ =>
      Raise (OverflowError "cannot convert float infinity to integer")
  | S754_zero _ => Ok 0%Z
  | S754_finite s m e => Ok (Z.shiftl (if s then Zneg m else Zpos m) e)
  end.

Section RenderSpec.
Context {D B Canvas R Wr Img W : Type}
        `{Drawable float D B Canvas W} `{Renderer R D Img W}
        `{Writer Wr Img W}.
Local Open Scope py_scope.

(** [total_frames = floor(fps * scene.duration)], the product taken in
    binary64. *)
Definition spec_total_frames (scene : Scene.t float (State W D)) (fps : Z)
    : result Z :=
  f <- float_of_int fps ;;
  float_floor (PrimFloat.mul f (Scene.duration scene)).

(** Frame [k]: evaluated at [k / fps], cropped to the fixed bounds, handed
    to the renderer, rasterized. *)
Definition spec_frame (scene : Scene.t float (State W D)) (renderer : R)
    (fps : Z) (fixed_bounds : B) (k : Z) : State W Img :=
  frame <~ Scene.make_frame scene (int_quotient k fps) ;;
  cropped <~ crop frame fixed_bounds ;;
  renderer_render renderer cropped ~;;
  get_rendered_image renderer.

(** The frames of the indices [ks], each appended to the sink before the
    next is made. *)
Fixpoint spec_frames (scene : Scene.t float (State W D)) (renderer : R)
    (writer : Wr) (fps : Z) (fixed_bounds : B) (ks : list Z)
    : State W (list Img) :=
  match ks with
  | [] => sret []
  | k :: rest =>
      px <~ spec_frame scene renderer fps fixed_bounds k ;;
      append_data writer px ~;;
      pxs <~ spec_frames scene renderer writer fps fixed_bounds rest ;;
      sret (px :: pxs)
  end.

(** The renderer given, or a new one. *)
Definition spec_renderer (renderer : option R) : State W R :=
  match renderer with
  | None => Renderer_new
  | Some r => sret r
  end.

(** The sink is opened; [total_frames] frames are appended, the bounds of
    the first being taken once and every frame, the first included, cropped
    to them; the sink is closed.  The result lists the frames appended. *)
Definition spec_render (scene : Scene.t float (State W D))
    (filename : string) (renderer : option R) (fps total_frames : Z)
    : State W (list Img) :=
  renderer <~ spec_renderer renderer ;;
  writer <~ get_writer filename fps ;;
  frames <~ match py_range total_frames with
            | [] => sret []
            | k :: rest =>
                frame <~ Scene.make_frame scene (int_quotient k fps) ;;
                fixed_bounds <~ get_bounds frame ;;
                cropped <~ crop frame fixed_bounds ;;
                renderer_render renderer cropped ~;;
                px <~ get_rendered_image renderer ;;
                append_data writer px ~;;
                pxs <~ spec_frames scene renderer writer fps fixed_bounds
                                   rest ;;
                sret (px :: pxs)
            end ;;
  writer_exit writer ~;;
  sret frames.

(** The heap in which frame 0 is made: a renderer is there and the sink is
    open. *)
Definition spec_before_frames (filename : string) (renderer : option R)
    (fps : Z) : State W Wr :=
  spec_renderer renderer ~;; get_writer filename fps.

(** The contract of the collaborators behind the statement on pixel
    dimensions: a drawable cropped to [b] is rasterized at the size of
    [b]. *)
Definition renders_at_size {Sz : Type} (dims : Img -> Sz) (size : B -> Sz)
    : Prop :=
  forall (renderer : R) (d : D) (b : B) (w : W),
    let cropped := crop d b w in
    let drawn := renderer_render renderer (fst cropped) (snd cropped) in
    dims (fst (get_rendered_image renderer (snd drawn))) = size b.
End RenderSpec.

(** ** The timeline of a playbook *)

(** The cursor holds the sum of the durations of the scenes added. *)
Definition cursor_is_total {T : Type} `{PyNum T} {D W : Type}
    (self : Playbook.t T D W) : Prop :=
  Playbook._cursor self = py_sum (map Scene.duration (Playbook._scenes self)).

(** The time at which scene [k] of a list starts when the list is played in
    order: the sum of the durations before it. *)
Definition scene_start {T : Type} `{PyNum T} {F : Type}
    (scenes : list (Scene.t T F)) (k : nat) : T :=
  py_sum (map Scene.duration (firstn k scenes)).

(** A clip that holds one [Animated] of three seconds, and one that holds
    one of four. *)
Definition three_seconds : Animated.t Qc recorded string :=
  Animated.Animated [Key "A"; Key "B"] [Qc_of_Z 3] ["ease"%string]
                    (Qc_of_Z 3 + 0)%Qc 0%Qc 0.

Definition four_seconds : Animated.t Qc recorded string :=
  Animated.Animated [Key "C"; Key "D"] [Qc_of_Z 4] ["ease"%string]
                    (Qc_of_Z 4 + 0)%Qc 0%Qc 0.

Definition moving : clip := Clip "moving" [three_seconds] None.

Definition sliding : clip := Clip "sliding" [four_seconds] None.

(** A timeline hook: play the three-second clip, hold its end for two
    seconds, play the four-second clip. *)
Definition demo_timeline (self : Playbook.t Qc clip stage) (w : stage)
    : result (Playbook.t Qc clip stage * stage) :=
  let (self, w) := Playbook.play self moving None w in
  match Playbook.freeze self (Qc_of_Z 2) with
  | Raise e => Raise e
  | Ok self => Ok (Playbook.play self sliding None w)
  end.

(** ** iceberg.primitives.typst: from a Typst source to an SVG file

    A shallow embedding of [_create_typst_svg] and
    [typst_content_to_svg_file] of [src/iceberg/primitives/typst.py].  The
    file system is the content of every path that exists.  What the
    functions call outside of themselves is gathered in [Environment]:
    [shutil.which], [os.path.splitext], the [typst] program run through
    [subprocess.run], the post-processing of the SVG, and the helpers of
    [iceberg.utils].  Writing a file always succeeds here, and logging is
    left out. *)

Module Typst.

Inductive error : Type :=
| TypstError (message : string)
| Other (what : string).         (* an exception of a collaborator *)

Definition files : Type := string -> option string.

(** [open(path, "w").write(content)] *)
Definition write (path content : string) (fs : files) : files :=
  fun p => if String.eqb p path then Some content else fs p.

(** [os.remove(path)] with [FileNotFoundError] passed over *)
Definition remove (path : string) (fs : files) : files :=
  fun p => if String.eqb p path then None else fs p.

(** [os.path.exists(path)] *)
Definition exists_ (path : string) (fs : files) : bool :=
  match fs path with
  | Some _ => true
  | None => false
  end.

(** How [subprocess.run(..., check=True)] ends: exit status 0, another
    exit status with what the program wrote to stderr, or an exception
    other than [CalledProcessError]. *)
Inductive run_outcome : Type :=
| Completed
| CalledProcessError (stderr : string)
| RunFailed (what : string).

(** How a call of this module ends. *)
Inductive result_of_unit : Type :=
| Done
| Failed (e : error).

Record Environment : Type := {
  which : string -> bool;                        (* [shutil.which(p) is not None] *)
  splitext : string -> string * string;          (* [os.path.splitext] *)
  run : list string -> files -> files * run_outcome;
  _postprocess_typst_svg : string -> files -> files * result_of_unit;
  temp_directory : string;
  temp_filename : string -> string;
  join : string -> string -> string              (* [os.path.join] *)
}.

Definition not_installed : string :=
  "Program 'typst' is not installed for Typst rendering. Please install it and make it available in your PATH environment variable.You can find instructions at https://github.com/typst/typst".

Definition _create_typst_svg (env : Environment)
    (typst_source svg_file : string) (fs : files) : files * result_of_unit :=
  let _PROGRAM := "typst"%string in
  if negb (which env _PROGRAM) then (fs, Failed (TypstError not_installed))
  else
    let (root, _) := splitext env svg_file in
    let fs := write (root ++ ".typ") typst_source fs in
    let (fs, outcome) :=
      run env [_PROGRAM; "compile"; root ++ ".typ"; root ++ ".svg"]%string fs in
    (* finally: *)
    let fs := remove (root ++ ".typ") fs in
    match outcome with
    | CalledProcessError error_message =>
        (fs, Failed (TypstError error_message))
    | RunFailed what => (fs, Failed (Other what))
    | Completed => _postprocess_typst_svg env svg_file fs
    end.

Definition typst_content_to_svg_file (env : Environment) (content : string)
    (fs : files) : files * (string + error) :=
  let svg_file :=
    join env (temp_directory env) (temp_filename env content ++ ".svg") in
  if negb (exists_ svg_file fs) then
    match _create_typst_svg env content svg_file fs with
    | (fs, Done) => (fs, inl svg_file)
    | (fs, Failed e) => (fs, inr e)
    end
  else (fs, inl svg_file).

End Typst.

(** An environment to run the two functions in: [typst] is installed,
    every target is [/tmp/x.svg], and the program either writes the SVG or
    stops with an error message, as [compiles] says. *)
Definition demo_environment (compiles : bool) : Typst.Environment := {|
  Typst.which := fun program => String.eqb program "typst";
  Typst.splitext := fun _ => ("/tmp/x", ".svg")%string;
  Typst.run := fun _ fs =>
    if compiles then (Typst.write "/tmp/x.svg" "<svg/>" fs, Typst.Completed)
    else (fs, Typst.CalledProcessError "error: unknown variable");
  Typst._postprocess_typst_svg := fun _ fs => (fs, Typst.Done);
  Typst.temp_directory := "/tmp";
  Typst.temp_filename := fun _ => "x"%string;
  Typst.join := fun a b => (a ++ "/" ++ b)%string
|}.

Definition no_files : Typst.files := fun _ => None.

(** * Verification *)

(** ** Computations on the heap *)

Lemma sbind_run {W X Y : Type} (m : State W X) (k : X -> State W Y) (w : W) :
  sbind m k w = k (fst (m w)) (snd (m w)).
Proof. unfold sbind. now destruct (m w). Qed.

(** ** Exact rationals: the boolean comparisons and the order *)

Lemma Qc_ltb_true (x y : Qc) : Qc_ltb x y = true <-> (x < y)%Qc.
Proof.
  unfold Qc_ltb. rewrite Qclt_alt.
  destruct (x ?= y)%Qc; split; intro E; congruence.
Qed.

Lemma Qc_ltb_false (x y : Qc) : Qc_ltb x y = false <-> (y <= x)%Qc.
Proof.
  split; intro E.
  - apply Qcnot_lt_le. intro L. apply Qc_ltb_true in L. congruence.
  - destruct (Qc_ltb x y) eqn:L; [ | reflexivity ].
    apply Qc_ltb_true in L. exfalso. exact (Qcle_not_lt _ _ E L).
Qed.

Lemma Qc_is_zero_true (x : Qc) : Qc_is_zero x = true <-> x = 0%Qc.
Proof.
  unfold Qc_is_zero. rewrite Qceq_alt.
  destruct (x ?= 0)%Qc; split; intro E; congruence.
Qed.

(** Moves a goal on [Qc] to [Q], where [lra] applies. *)
Ltac qc_to_q :=
  unfold Qcdiv, Qcminus in *;
  unfold Qclt, Qcle, Qcplus, Qcopp, Qcmult, Q2Qc in *;
  cbn [this] in *;
  repeat (rewrite ?Qred_correct in * ).

Ltac qc_order := intros; qc_to_q; lra.

(** Turns the boolean tests of the source into order facts. *)
Ltac qc_tests :=
  repeat match goal with
  | E : Qc_ltb _ _ = true |- _ => apply Qc_ltb_true in E
  | E : Qc_ltb _ _ = false |- _ => apply Qc_ltb_false in E
  end.

Lemma Qc_sub_0_r (x : Qc) : (x - 0 = x)%Qc.
Proof. ring. Qed.

Lemma Qc_sub_diag (x : Qc) : (x - x = 0)%Qc.
Proof. ring. Qed.

Lemma Qc_add_sub (x y : Qc) : (x + y - y = x)%Qc.
Proof. ring. Qed.

(** ** The scene algebra *)

Section SceneUnfold.
Context {T : Type} `{PyNum T} {F : Type}.

Lemma concat_frame (a b : Scene.t T F) (x : T) :
  Scene.make_frame (Scene.concat a b) x
  = if lt x (Scene.duration a) then Scene.make_frame a x
    else Scene.make_frame b (sub x (Scene.duration a)).
Proof. reflexivity. Qed.

Lemma concat_duration (a b : Scene.t T F) :
  Scene.duration (Scene.concat a b)
  = add (Scene.duration a) (Scene.duration b).
Proof. reflexivity. Qed.
End SceneUnfold.

Lemma Qc_of_Z_inj (m n : Z) : Qc_of_Z m = Qc_of_Z n -> m = n.
Proof.
  intro E. apply (f_equal this) in E. unfold Qc_of_Z in E. cbn [this Q2Qc] in E.
  assert (Q : (inject_Z m == inject_Z n)%Q)
    by (rewrite <- (Qred_correct (inject_Z m)), E; apply Qred_correct).
  unfold Qeq in Q. cbn in Q. lia.
Qed.

(** [concat(Scene(2,f1), Scene(3,f2))] at the times 1, 3 and 4. *)
Lemma concat_2_3_frames (F : Type) (f1 f2 : Qc -> F) :
  let s := Scene.concat (Scene.Scene (Qc_of_Z 2) f1)
                        (Scene.Scene (Qc_of_Z 3) f2) in
  Scene.duration s = Qc_of_Z 5
  /\ Scene.make_frame s (Qc_of_Z 1) = f1 (Qc_of_Z 1)
  /\ Scene.make_frame s (Qc_of_Z 4) = f2 (Qc_of_Z 2)
  /\ Scene.make_frame s (Qc_of_Z 3) = f2 (Qc_of_Z 1).
Proof. repeat split. Qed.

(** C2 (amended).  [concat a b] lasts [a.duration + b.duration]; before
    [a.duration] it shows [a]'s frame at the same time, from [a.duration] on
    it shows [b]'s frame at [t - a.duration].  For [Scene(2,f1)] and
    [Scene(3,f2)]: duration 5, frame 1 is [f1(1)], and frame 4 is [f2(2)],
    since 4 - 2 = 2 (it is frame 3 that is [f2(1)]). *)
Theorem concat_spec (F : Type) :
  (forall a b : Scene.t Qc F,
      Scene.duration (Scene.concat a b)
      = (Scene.duration a + Scene.duration b)%Qc
      /\ (forall x : Qc, (x < Scene.duration a)%Qc ->
            Scene.make_frame (Scene.concat a b) x = Scene.make_frame a x)
      /\ (forall x : Qc, (Scene.duration a <= x)%Qc ->
            Scene.make_frame (Scene.concat a b) x
            = Scene.make_frame b (x - Scene.duration a)%Qc))
  /\ (forall f1 f2 : Qc -> F,
        let s := Scene.concat (Scene.Scene (Qc_of_Z 2) f1)
                              (Scene.Scene (Qc_of_Z 3) f2) in
        Scene.duration s = Qc_of_Z 5
        /\ Scene.make_frame s (Qc_of_Z 1) = f1 (Qc_of_Z 1)
        /\ Scene.make_frame s (Qc_of_Z 4) = f2 (Qc_of_Z 2)
        /\ Scene.make_frame s (Qc_of_Z 3) = f2 (Qc_of_Z 1)).
Proof.
  split.
  - intros a b. split; [ reflexivity | split ]; intros x Hx;
      rewrite concat_frame; cbn [lt sub Qc_PyNum].
    + apply Qc_ltb_true in Hx. now rewrite Hx.
    + apply Qc_ltb_false in Hx. now rewrite Hx.
  - exact (concat_2_3_frames F).
Qed.

Lemma concat_spec_witness :
  let a := Scene.Scene (Qc_of_Z 2) (fun x : Qc => (x, false)) in
  let b := Scene.Scene (Qc_of_Z 3) (fun x : Qc => (x, true)) in
  Scene.make_frame (Scene.concat a b) (Qc_of_Z 1) = (Qc_of_Z 1, false)
  /\ Scene.make_frame (Scene.concat a b) (Qc_of_Z 2)
     = ((Qc_of_Z 2 - Qc_of_Z 2)%Qc, true).
Proof.
  intros a b.
  destruct (proj1 (concat_spec (Qc * bool)) a b) as [_ [Hlt Hge]].
  split.
  - apply (Hlt (Qc_of_Z 1)). reflexivity.
  - apply (Hge (Qc_of_Z 2)). unfold Qcle. cbn. discriminate.
Defined.

(** C2 as stated fails: with a frame function that returns the time it is
    asked for, frame 4 of [concat(Scene(2,f1), Scene(3,f2))] is [f2(2)],
    not [f2(1)]. *)
Lemma concat_frame_4_counterexample :
  ~ (forall (F : Type) (f1 f2 : Qc -> F),
        Scene.make_frame
          (Scene.concat (Scene.Scene (Qc_of_Z 2) f1) (Scene.Scene (Qc_of_Z 3) f2))
          (Qc_of_Z 4)
        = f2 (Qc_of_Z 1)).
Proof.
  intro C. specialize (C Qc (fun x => x) (fun x => x)).
  rewrite (proj1 (proj2 (proj2 (concat_2_3_frames Qc _ _)))) in C.
  apply Qc_of_Z_inj in C. discriminate C.
Qed.

(** Both groupings of three scenes select the same scene at every time,
    provided the middle scene does not have a negative duration. *)
Lemma concat_assoc_frame (F : Type) (a b c : Scene.t Qc F) (x : Qc) :
  (0 <= Scene.duration b)%Qc ->
  Scene.make_frame (Scene.concat (Scene.concat a b) c) x
  = Scene.make_frame (Scene.concat a (Scene.concat b c)) x.
Proof.
  intro Hb.
  rewrite !concat_frame, !concat_duration. cbn [lt sub add Qc_PyNum].
  destruct (Qc_ltb x (Scene.duration a)) eqn:Ea;
    destruct (Qc_ltb x (Scene.duration a + Scene.duration b)) eqn:Eab;
    destruct (Qc_ltb (x - Scene.duration a) (Scene.duration b)) eqn:Eb;
    qc_tests; try reflexivity; try (exfalso; qc_order).
  all: f_equal; ring.
Qed.

(** C3 (amended).  In exact arithmetic, and with a middle scene whose
    duration is not negative, both groupings of three scenes show the same
    frame at every query time and both last
    [a.duration + b.duration + c.duration]. *)
Theorem concat_assoc (F : Type) (a b c : Scene.t Qc F) (x : Qc) :
  (0 <= Scene.duration b)%Qc ->
  Scene.make_frame (Scene.concat (Scene.concat a b) c) x
  = Scene.make_frame (Scene.concat a (Scene.concat b c)) x
  /\ Scene.duration (Scene.concat (Scene.concat a b) c)
     = (Scene.duration a + Scene.duration b + Scene.duration c)%Qc
  /\ Scene.duration (Scene.concat a (Scene.concat b c))
     = (Scene.duration a + Scene.duration b + Scene.duration c)%Qc.
Proof.
  intro Hb. split; [ now apply concat_assoc_frame | split ].
  - reflexivity.
  - rewrite !concat_duration. cbn [add Qc_PyNum]. ring.
Qed.

Lemma concat_assoc_witness :
  let a := Scene.Scene (Qc_of_Z 1) (fun x : Qc => (1%nat, x)) in
  let b := Scene.Scene (Qc_of_Z 0) (fun x : Qc => (2%nat, x)) in
  let c := Scene.Scene (Qc_of_Z 2) (fun x : Qc => (3%nat, x)) in
  (0 <= Scene.duration b)%Qc
  /\ Scene.make_frame (Scene.concat (Scene.concat a b) c) (Qc_of_Z 2)
     = Scene.make_frame (Scene.concat a (Scene.concat b c)) (Qc_of_Z 2).
Proof.
  intros a b c.
  assert (Hb : (0 <= Scene.duration b)%Qc) by (unfold Qcle; cbn; discriminate).
  split; [ exact Hb | ].
  exact (proj1 (concat_assoc (nat * Qc) a b c (Qc_of_Z 2) Hb)).
Defined.

(** C3 as stated fails on binary64 durations 0.1, 0.2 and 0.3, with frame
    functions that return the time they are asked for: the two groupings
    last 0.6000000000000001 and 0.6 seconds, and at time 0.5 they ask the
    third scene for its frames at 0.19999999999999996 and at 0.2. *)
Lemma concat_assoc_binary64_counterexample :
  let a := Scene.Scene 0.1%float (fun x : float => x) in
  let b := Scene.Scene 0.2%float (fun x : float => x) in
  let c := Scene.Scene 0.3%float (fun x : float => x) in
  Scene.duration (Scene.concat (Scene.concat a b) c)
    = 0.6000000000000001%float
  /\ Scene.duration (Scene.concat a (Scene.concat b c)) = 0.6%float
  /\ Scene.duration (Scene.concat (Scene.concat a b) c)
       <> Scene.duration (Scene.concat a (Scene.concat b c))
  /\ Scene.make_frame (Scene.concat (Scene.concat a b) c) 0.5%float
     = 0.19999999999999996%float
  /\ Scene.make_frame (Scene.concat a (Scene.concat b c)) 0.5%float
     = 0.2%float
  /\ Scene.make_frame (Scene.concat (Scene.concat a b) c) 0.5%float
     <> Scene.make_frame (Scene.concat a (Scene.concat b c)) 0.5%float.
Proof.
  intros a b c.
  split; [ vm_compute; reflexivity | ].
  split; [ vm_compute; reflexivity | ].
  split.
  { intro E. apply (f_equal (fun v => PrimFloat.eqb v 0.6%float)) in E.
    vm_compute in E. discriminate E. }
  split; [ vm_compute; reflexivity | ].
  split; [ vm_compute; reflexivity | ].
  intro E. apply (f_equal (fun v => PrimFloat.eqb v 0.2%float)) in E.
  vm_compute in E. discriminate E.
Qed.

(** The same fails in exact arithmetic when the middle scene has a negative
    duration: after [Scene(2,f)] and [Scene(-2,g)], time 1 falls in the
    third scene under one grouping and in the first under the other. *)
Lemma concat_assoc_needs_nonnegative :
  let a := Scene.Scene (Qc_of_Z 2) (fun _ : Qc => 1%nat) in
  let b := Scene.Scene (Qc_of_Z (-2)) (fun _ : Qc => 2%nat) in
  let c := Scene.Scene (Qc_of_Z 1) (fun _ : Qc => 3%nat) in
  Scene.make_frame (Scene.concat (Scene.concat a b) c) (Qc_of_Z 1) = 3%nat
  /\ Scene.make_frame (Scene.concat a (Scene.concat b c)) (Qc_of_Z 1) = 1%nat.
Proof. split; reflexivity. Qed.

(** C4.  [freeze s d] lasts [d], and at every time, in particular at every
    time of [[0, d)], its frame is the call [s._make_frame(s.duration)]
    itself: the frame function ignores its argument and evaluates the
    wrapped scene again on each query.  [freeze(Scene(2,f), 5)] yields
    [f(2)] at every time. *)
Theorem freeze_spec (T F : Type) :
  (forall (s : Scene.t T F) (d x : T),
      Scene.duration (Scene.freeze s d) = d
      /\ Scene.make_frame (Scene.freeze s d) x
         = Scene.make_frame s (Scene.duration s))
  /\ (forall (f : Qc -> F) (x : Qc),
        Scene.make_frame (Scene.freeze (Scene.Scene (Qc_of_Z 2) f) (Qc_of_Z 5)) x
        = f (Qc_of_Z 2)).
Proof. split; [ intros s d x; split | intros f x ]; reflexivity. Qed.

(** C5.  [reverse s] lasts as long as [s] and maps every [t] to
    [s.frame(s.duration - t)]; at 0 it evaluates [s.frame(s.duration)], at
    [s.duration] it evaluates [s.frame(0)], and
    [reverse(Scene(4,f)).frame(1)] is [f(3)]. *)
Theorem reverse_spec (F : Type) :
  (forall (s : Scene.t Qc F),
      Scene.duration (Scene.reverse s) = Scene.duration s
      /\ (forall x : Qc,
            Scene.make_frame (Scene.reverse s) x
            = Scene.make_frame s (Scene.duration s - x)%Qc)
      /\ Scene.make_frame (Scene.reverse s) 0%Qc
         = Scene.make_frame s (Scene.duration s)
      /\ Scene.make_frame (Scene.reverse s) (Scene.duration s)
         = Scene.make_frame s 0%Qc)
  /\ (forall f : Qc -> F,
        Scene.make_frame (Scene.reverse (Scene.Scene (Qc_of_Z 4) f)) (Qc_of_Z 1)
        = f (Qc_of_Z 3)).
Proof.
  split.
  - intro s. split; [ reflexivity | split; [ reflexivity | split ] ].
    + unfold Scene.reverse, Scene.make_frame at 1.
      cbn [Scene._make_frame sub Qc_PyNum]. now rewrite Qc_sub_0_r.
    + unfold Scene.reverse, Scene.make_frame at 1.
      cbn [Scene._make_frame sub Qc_PyNum]. now rewrite Qc_sub_diag.
  - intro f. reflexivity.
Qed.

(** ** Keyframe evaluation *)

Lemma fold_add_nonneg (ds : list Qc) (acc : Qc) :
  Forall (fun d => (0 <= d)%Qc) ds -> (acc <= fold_left Qcplus ds acc)%Qc.
Proof.
  intro Hds. revert acc.
  induction Hds as [ | d ds Hd _ IH ]; intro acc; cbn [fold_left].
  - apply Qcle_refl.
  - apply Qcle_trans with (acc + d)%Qc; [ qc_order | apply IH ].
Qed.

(** The scan of the segments, started at index [i0] with [acc] elapsed: when
    [acc <= x] and the durations left carry the elapsed time beyond [x], the
    loop breaks at the first segment whose right end exceeds [x]. *)
Lemma scan_breaks (ds : list Qc) :
  forall (i0 : nat) (acc x : Qc) (bound : option (nat * Qc)),
    (acc <= x)%Qc -> (x < fold_left Qcplus ds acc)%Qc ->
    exists (k : nat) (d : Qc),
      nth_error ds k = Some d
      /\ Animated.scan ds i0 acc x bound
         = (Some ((i0 + k)%nat, d), fold_left Qcplus (firstn k ds) acc)
      /\ (fold_left Qcplus (firstn k ds) acc <= x)%Qc
      /\ (x < fold_left Qcplus (firstn k ds) acc + d)%Qc
      /\ (forall (j : nat) (dj : Qc), (j < k)%nat -> nth_error ds j = Some dj ->
            (fold_left Qcplus (firstn j ds) acc + dj <= x)%Qc).
Proof.
  induction ds as [ | d ds IH ]; intros i0 acc x bound Hacc Hx.
  - cbn [fold_left] in Hx. exfalso. qc_order.
  - cbn [Animated.scan gt add Qc_PyNum].
    destruct (Qc_ltb x (acc + d)) eqn:E; qc_tests.
    + exists 0%nat, d. rewrite Nat.add_0_r. cbn [firstn fold_left nth_error].
      repeat split; try assumption. intros j dj Hj. lia.
    + cbn [fold_left] in Hx.
      destruct (IH (S i0) (acc + d)%Qc x (Some (i0, d)) E Hx)
        as (k & dk & Hk & Hscan & Hlo & Hhi & Hfirst).
      exists (S k), dk. rewrite Nat.add_succ_r. cbn [firstn fold_left nth_error].
      repeat split; try assumption.
      intros [ | j ] dj Hj Hnth; simpl in Hnth; cbn [firstn fold_left].
      * assert (Ed : d = dj) by congruence. subst dj. exact E.
      * apply Hfirst; [ lia | exact Hnth ].
Qed.

Lemma py_assert_ok {A} (cond : bool) (msg : string) (k : result A) (a : A) :
  rbind (py_assert cond msg) (fun _ => k) = Ok a -> cond = true /\ k = Ok a.
Proof. destruct cond; cbn; [ auto | discriminate ]. Qed.

Lemma py_assert_fails {A} (cond : bool) (msg : string) (k : result A) :
  cond = false ->
  rbind (py_assert cond msg) (fun _ => k) = Raise (AssertionError msg).
Proof. intros ->. reflexivity. Qed.

Lemma py_assert_passes {A} (cond : bool) (msg : string) (k : result A) :
  cond = true -> rbind (py_assert cond msg) (fun _ => k) = k.
Proof. intros ->. reflexivity. Qed.

Section AnimatedFacts.
Context {D Ease : Type} `{Animatable Qc D Ease}.

(** What a successful construction establishes. *)
Lemma init_ok (states : list D) (durations : scalar_or_seq Qc)
    (ease_types : scalar_or_seq Ease) (ease_fns : option (scalar_or_seq Ease))
    (start_time : Qc) (a : Animated.t Qc D Ease) :
  Animated.__init__ states durations ease_types ease_fns start_time = Ok a ->
  (2 <= length states)%nat
  /\ length states = (length (Animated._durations a) + 1)%nat
  /\ length states = (length (Animated._ease_fns a) + 1)%nat
  /\ Animated._states a = states
  /\ Animated._durations a = Animated.broadcast durations states
  /\ Animated._ease_fns a
     = Animated.broadcast
         (match ease_fns with None => ease_types | Some e => e end) states
  /\ Animated._total_duration a
     = (py_sum (Animated._durations a) + start_time)%Qc
  /\ Animated._start_time a = start_time.
Proof.
  unfold Animated.__init__. intro E.
  apply py_assert_ok in E as [E2 E].
  apply py_assert_ok in E as [Ed E].
  apply py_assert_ok in E as [Ee E].
  injection E as <-.
  apply Nat.leb_le in E2. apply Nat.eqb_eq in Ed, Ee.
  cbn. repeat split; assumption.
Qed.
End AnimatedFacts.

Lemma nth_error_in_range {A} (xs : list A) (i : nat) :
  (i < length xs)%nat -> exists a, nth_error xs i = Some a.
Proof.
  intro Hi. destruct (nth_error xs i) as [ a | ] eqn:E; [ now exists a | ].
  apply nth_error_None in E. lia.
Qed.

Lemma Qc_truediv_pos (x d : Qc) :
  (0 < d)%Qc -> Qc_truediv x d = Ok (x / d)%Qc.
Proof.
  intro Hd. unfold Qc_truediv.
  destruct (Qc_is_zero d) eqn:E; [ | reflexivity ].
  apply Qc_is_zero_true in E. subst d. exfalso. qc_order.
Qed.

Section AnimatedEval.
Context {D Ease : Type} `{Animatable Qc D Ease}.
Variable a : Animated.t Qc D Ease.
Variable x : Qc.

Let elapsed : Qc := (x - Animated._start_time a)%Qc.

Hypothesis durations_length :
  length (Animated._states a) = (length (Animated._durations a) + 1)%nat.
Hypothesis ease_length :
  length (Animated._states a) = (length (Animated._ease_fns a) + 1)%nat.
Hypothesis total_duration_sum :
  Animated._total_duration a
  = (py_sum (Animated._durations a) + Animated._start_time a)%Qc.

(** Before the start time: the first state, as it is. *)
Lemma eval_pre_roll :
  (elapsed < 0)%Qc ->
  exists first rest,
    Animated._states a = first :: rest
    /\ Animated._get_drawable_at_t a x = Ok first.
Proof.
  intro Hneg. unfold Animated._get_drawable_at_t. cbn [lt sub zero Qc_PyNum].
  apply Qc_ltb_true in Hneg. fold elapsed. rewrite Hneg.
  destruct (Animated._states a) as [ | first rest ] eqn:Es.
  - cbn in durations_length. lia.
  - exists first, rest. split; reflexivity.
Qed.

(** From the sum of the durations on: the last state, as it is. *)
Lemma eval_post_roll :
  (0 <= elapsed)%Qc -> (py_sum (Animated._durations a) <= elapsed)%Qc ->
  exists first rest,
    Animated._states a = first :: rest
    /\ Animated._get_drawable_at_t a x = Ok (last rest first).
Proof.
  intros Hpos Hend. unfold Animated._get_drawable_at_t.
  cbn [lt ge sub zero Qc_PyNum]. fold elapsed.
  apply Qc_ltb_false in Hpos. rewrite Hpos.
  rewrite total_duration_sum, Qc_add_sub.
  apply Qc_ltb_false in Hend. rewrite Hend. cbn [negb].
  destruct (Animated._states a) as [ | first rest ] eqn:Es.
  - cbn in durations_length. lia.
  - exists first, rest. split; reflexivity.
Qed.

(** In between: the scan breaks at the first segment whose right-exclusive
    interval holds the elapsed time; its duration is positive, and the
    result is the interpolation of its two states. *)
Lemma eval_segment :
  (0 <= elapsed)%Qc -> (elapsed < py_sum (Animated._durations a))%Qc ->
  exists (i : nat) (d : Qc) (s s' : D) (e : Ease),
    let acc := py_sum (firstn i (Animated._durations a)) in
    nth_error (Animated._durations a) i = Some d
    /\ nth_error (Animated._states a) i = Some s
    /\ nth_error (Animated._states a) (i + 1) = Some s'
    /\ nth_error (Animated._ease_fns a) i = Some e
    /\ (acc <= elapsed)%Qc /\ (elapsed < acc + d)%Qc /\ (0 < d)%Qc
    /\ (forall (j : nat) (dj : Qc), (j < i)%nat ->
          nth_error (Animated._durations a) j = Some dj ->
          (py_sum (firstn j (Animated._durations a)) + dj <= elapsed)%Qc)
    /\ Animated.scan (Animated._durations a) 0 zero elapsed None
       = (Some (i, d), acc)
    /\ Animated._get_drawable_at_t a x
       = Ok (tween s s' ((elapsed - acc) / d)%Qc e).
Proof.
  intros Hpos Hend.
  destruct (scan_breaks (Animated._durations a) 0 0%Qc elapsed None Hpos Hend)
    as (k & d & Hk & Hscan & Hlo & Hhi & Hfirst).
  assert (Hklt : (k < length (Animated._durations a))%nat)
    by (apply nth_error_Some; congruence).
  destruct (nth_error_in_range (Animated._states a) k) as [s Hs]; [ lia | ].
  destruct (nth_error_in_range (Animated._states a) (k + 1)) as [s' Hs'];
    [ lia | ].
  destruct (nth_error_in_range (Animated._ease_fns a) k) as [e He]; [ lia | ].
  assert (Hd : (0 < d)%Qc) by qc_order.
  exists k, d, s, s', e. cbn zeta. unfold py_sum. cbn [add zero Qc_PyNum].
  repeat split; try assumption.
  unfold Animated._get_drawable_at_t. cbn [lt ge sub zero Qc_PyNum].
  fold elapsed.
  apply Qc_ltb_false in Hpos. rewrite Hpos.
  rewrite total_duration_sum, Qc_add_sub.
  apply Qc_ltb_true in Hend.
  unfold py_sum in Hend |- *. cbn [add zero Qc_PyNum] in Hend |- *.
  rewrite Hend. cbn [negb].
  cbn [Nat.add] in Hscan. rewrite Hscan.
  cbn [truediv Qc_PyNum]. rewrite (Qc_truediv_pos _ d Hd). cbn [rbind].
  unfold py_index. rewrite Hs, Hs', He. reflexivity.
Qed.

(** Every query time yields a drawable: no exception escapes. *)
Lemma eval_total : exists v : D, Animated._get_drawable_at_t a x = Ok v.
Proof.
  destruct (Qclt_le_dec elapsed 0) as [Hneg | Hpos].
  - destruct (eval_pre_roll Hneg) as (first & rest & _ & E). eauto.
  - destruct (Qclt_le_dec elapsed (py_sum (Animated._durations a)))
      as [Hin | Hend].
    + destruct (eval_segment Hpos Hin) as (i & d & s & s' & e & Hseg).
      cbn zeta in Hseg. decompose [and] Hseg. eauto.
    + destruct (eval_post_roll Hpos Hend) as (first & rest & _ & E). eauto.
Qed.
End AnimatedEval.

(** The spec's example: states [A, B, C], durations [1, 2], one ease for
    both segments, start time 0. *)
Lemma abc_examples {D Ease : Type} `{Animatable Qc D Ease}
    (A B C : D) (e : Ease) :
  exists a : Animated.t Qc D Ease,
    Animated.__init__ [A; B; C] (Sequence [Qc_of_Z 1; Qc_of_Z 2]) (Scalar e)
                      None 0%Qc = Ok a
    /\ Animated._get_drawable_at_t a (Qc_of_Z (-1)) = Ok A
    /\ Animated._get_drawable_at_t a (Qc_of_Z 0) = Ok (tween A B 0%Qc e)
    /\ Animated._get_drawable_at_t a (Qc_of_Z 3) = Ok C
    /\ Animated._get_drawable_at_t a (Qc_of_Z 10) = Ok C
    /\ Animated._get_drawable_at_t a (Q2Qc (1 # 2))
       = Ok (tween A B (Q2Qc (1 # 2)) e)
    /\ Animated._get_drawable_at_t a (Qc_of_Z 1) = Ok (tween B C 0%Qc e)
    /\ Animated._get_drawable_at_t a (Qc_of_Z 2)
       = Ok (tween B C (Q2Qc (1 # 2)) e).
Proof.
  eexists. split; [ reflexivity | ].
  repeat split;
    (vm_compute; reflexivity)
    || (cbv -[tween]; do 2 f_equal; apply Qc_is_canon; reflexivity).
Qed.

(** The same example in binary64. *)
Lemma abc_examples_binary64 {D Ease : Type} `{Animatable float D Ease}
    (A B C : D) (e : Ease) :
  exists a : Animated.t float D Ease,
    Animated.__init__ [A; B; C] (Sequence [1%float; 2%float]) (Scalar e)
                      None 0%float = Ok a
    /\ Animated._get_drawable_at_t a (-1)%float = Ok A
    /\ Animated._get_drawable_at_t a 0%float = Ok (tween A B 0%float e)
    /\ Animated._get_drawable_at_t a 3%float = Ok C
    /\ Animated._get_drawable_at_t a 10%float = Ok C
    /\ Animated._get_drawable_at_t a 0.5%float = Ok (tween A B 0.5%float e)
    /\ Animated._get_drawable_at_t a 1%float = Ok (tween B C 0%float e)
    /\ Animated._get_drawable_at_t a 2%float = Ok (tween B C 0.5%float e).
Proof.
  eexists. split; [ reflexivity | ].
  repeat split; vm_compute; reflexivity.
Qed.


Lemma Qc_lerp_starts_at_first (a b : Qc) :
  tween_starts_at_first (T := Qc) a b tt.
Proof. unfold tween_starts_at_first. cbn [tween Qc_lerp zero Qc_PyNum]. ring. Qed.






(** ** Configuration errors *)

Lemma broadcast_scalar_length {S A : Type} (x : A) (states : list S) :
  (2 <= length states)%nat ->
  length states = (length (Animated.broadcast (Scalar x) states) + 1)%nat.
Proof. intro H2. cbn [Animated.broadcast]. rewrite repeat_length. lia. Qed.

Lemma last_cons {A} (rest : list A) (a d : A) :
  last (a :: rest) d = last rest a.
Proof.
  revert a d. induction rest as [ | b rest IH ]; intros a d; [ reflexivity | ].
  change (last (a :: b :: rest) d) with (last (b :: rest) d).
  rewrite IH. symmetry. apply IH.
Qed.

Lemma py_last_snoc {A} (xs : list A) (x : A) : py_last (xs ++ [x]) = Ok x.
Proof.
  unfold py_last. destruct (xs ++ [x]) as [ | a rest ] eqn:E.
  - destruct xs; discriminate E.
  - rewrite <- (last_cons rest a a), <- E. now rewrite last_last.
Qed.

Section ConfigurationErrors.
Context {T : Type} `{PyNum T} {D S B Canvas Ease W : Type}
        `{Animatable T S Ease} `{Drawable T D B Canvas W}
        `{FindAnimated T D S Ease W}.

(** The three assertions of [Animated.__init__], on the broadcast inputs. *)
Lemma init_outcome (states : list S) (durations : scalar_or_seq T)
    (ease_types : scalar_or_seq Ease) (ease_fns : option (scalar_or_seq Ease))
    (start_time : T) :
  let ds := Animated.broadcast durations states in
  let es := Animated.broadcast
              (match ease_fns with None => ease_types | Some e => e end)
              states in
  ((length states < 2)%nat ->
     Animated.__init__ states durations ease_types ease_fns start_time
     = Raise (AssertionError
                "Must have at least two states to animate between."))
  /\ ((2 <= length states)%nat -> length states <> (length ds + 1)%nat ->
        Animated.__init__ states durations ease_types ease_fns start_time
        = Raise (AssertionError "Every pair of states must have a duration."))
  /\ ((2 <= length states)%nat -> length states = (length ds + 1)%nat ->
      length states <> (length es + 1)%nat ->
        Animated.__init__ states durations ease_types ease_fns start_time
        = Raise (AssertionError "Every pair of states must have an ease."))
  /\ ((2 <= length states)%nat -> length states = (length ds + 1)%nat ->
      length states = (length es + 1)%nat ->
        Animated.__init__ states durations ease_types ease_fns start_time
        = Ok (Animated.Animated states ds es
                (add (py_sum ds) start_time) start_time 0)).
Proof.
  intros ds es. unfold Animated.__init__. fold ds es.
  split; [ | split; [ | split ] ].
  - intro Hlen. apply py_assert_fails. apply Nat.leb_gt. lia.
  - intros Hlen Hd. rewrite py_assert_passes by (apply Nat.leb_le; lia).
    apply py_assert_fails. now apply Nat.eqb_neq.
  - intros Hlen Hd He. rewrite py_assert_passes by (apply Nat.leb_le; lia).
    rewrite py_assert_passes by now apply Nat.eqb_eq.
    apply py_assert_fails. now apply Nat.eqb_neq.
  - intros Hlen Hd He. rewrite py_assert_passes by (apply Nat.leb_le; lia).
    rewrite py_assert_passes by now apply Nat.eqb_eq.
    rewrite py_assert_passes by now apply Nat.eqb_eq.
    reflexivity.
Qed.

Lemma freeze_outcome (self : Playbook.t T D W) (duration : T) :
  (Playbook._scenes self = [] ->
     Playbook.freeze self duration
     = Raise (ValueError
                "No scenes have been added to the playbook. So cannot freeze."))
  /\ (forall scenes last_scene,
        Playbook._scenes self = scenes ++ [last_scene] ->
        Playbook.freeze self duration
        = Ok (Playbook.Playbook
                (add (Playbook._cursor self) duration)
                (Playbook._scenes self
                   ++ [Scene.freeze last_scene duration]))).
Proof.
  unfold Playbook.freeze. split.
  - intros ->. reflexivity.
  - intros scenes last_scene E. destruct self as [cursor all_scenes].
    cbn [Playbook._scenes Playbook._cursor] in *. subst all_scenes.
    rewrite length_app. cbn [length].
    replace (length scenes + 1 =? 0)%nat with false
      by (symmetry; apply Nat.eqb_neq; lia).
    rewrite py_last_snoc. reflexivity.
Qed.

Lemma combined_scene_outcome (self : Playbook.t T D W) :
  (Playbook._scenes self = [] ->
     Playbook.combined_scene self
     = Raise (AssertionError "No scenes have been added to the playbook."))
  /\ (forall first rest,
        Playbook._scenes self = first :: rest ->
        Playbook.combined_scene self = Ok (fold_left Scene.concat rest first)).
Proof.
  unfold Playbook.combined_scene. split.
  - intros ->. reflexivity.
  - intros first rest ->. reflexivity.
Qed.
End ConfigurationErrors.

(** C7.  [Animated.__init__] raises exactly when there are fewer than two
    states or when, after a scalar duration or ease has been repeated
    [len(states) - 1] times, the number of durations or of eases is not
    [len(states) - 1] (three states with one duration fail; scalars always
    fit); [Playbook.freeze] raises exactly when no scene has been added;
    [Playbook.combined_scene] raises exactly when the scene list is empty.
    In every other case the call returns. *)
Theorem configuration_errors {T : Type} `{PyNum T}
    {D S B Canvas Ease W : Type}
    `{Animatable T S Ease} `{Drawable T D B Canvas W}
    `{FindAnimated T D S Ease W} :
  (forall (states : list S) (durations : scalar_or_seq T)
          (ease_types : scalar_or_seq Ease)
          (ease_fns : option (scalar_or_seq Ease)) (start_time : T),
      let ds := Animated.broadcast durations states in
      let es := Animated.broadcast
                  (match ease_fns with None => ease_types | Some e => e end)
                  states in
      ((length states < 2)%nat \/ length states <> (length ds + 1)%nat
       \/ length states <> (length es + 1)%nat ->
         exists msg,
           Animated.__init__ states durations ease_types ease_fns start_time
           = Raise (AssertionError msg))
      /\ ((2 <= length states)%nat /\ length states = (length ds + 1)%nat
          /\ length states = (length es + 1)%nat ->
            exists a,
              Animated.__init__ states durations ease_types ease_fns start_time
              = Ok a))
  /\ (forall (s1 s2 s3 : S) (d : T) (e : Ease) (start_time : T),
        exists msg,
          Animated.__init__ [s1; s2; s3] (Sequence [d]) (Scalar e) None start_time
          = Raise (AssertionError msg))
  /\ (forall (states : list S) (d : T) (e : Ease) (start_time : T),
        (2 <= length states)%nat ->
        exists a,
          Animated.__init__ states (Scalar d) (Scalar e) None start_time = Ok a)
  /\ (forall (self : Playbook.t T D W) (duration : T),
        (Playbook._scenes self = [] ->
           exists msg, Playbook.freeze self duration = Raise (ValueError msg))
        /\ (Playbook._scenes self <> [] ->
              exists self', Playbook.freeze self duration = Ok self'))
  /\ (forall (self : Playbook.t T D W),
        (Playbook._scenes self = [] ->
           exists msg,
             Playbook.combined_scene self = Raise (AssertionError msg))
        /\ (Playbook._scenes self <> [] ->
              exists scene, Playbook.combined_scene self = Ok scene)).
Proof.
  split; [ | split; [ | split; [ | split ] ] ].
  - intros states durations ease_types ease_fns start_time ds es.
    destruct (init_outcome states durations ease_types ease_fns start_time)
      as (Hfew & Hdur & Hease & Hok). fold ds es in Hdur, Hease, Hok.
    split.
    + intros Hbad.
      destruct (le_lt_dec 2 (length states)) as [Hlen | Hlen];
        [ | eexists; exact (Hfew Hlen) ].
      destruct (Nat.eq_dec (length states) (length ds + 1)) as [Ed | Ed];
        [ | eexists; exact (Hdur Hlen Ed) ].
      destruct (Nat.eq_dec (length states) (length es + 1)) as [Ee | Ee];
        [ | eexists; exact (Hease Hlen Ed Ee) ].
      exfalso. destruct Hbad as [Hb | [Hb | Hb]]; [ lia | easy | easy ].
    + intros (Hlen & Ed & Ee). eexists. exact (Hok Hlen Ed Ee).
  - intros s1 s2 s3 d e start_time. eexists. reflexivity.
  - intros states d e start_time Hlen. eexists.
    apply (proj2 (proj2 (proj2
             (init_outcome states (Scalar d) (Scalar e) None start_time))));
      [ exact Hlen | | ]; now apply broadcast_scalar_length.
  - intros self duration. destruct (freeze_outcome self duration) as [He Hs].
    split.
    + intro E. eexists. exact (He E).
    + intro E. destruct (exists_last E) as (scenes & last_scene & E').
      eexists. exact (Hs scenes last_scene E').
  - intros self. destruct (combined_scene_outcome self) as [He Hs].
    split.
    + intro E. eexists. exact (He E).
    + intro E. destruct (Playbook._scenes self) as [ | first rest ] eqn:Es;
        [ easy | ].
      eexists. exact (Hs first rest eq_refl).
Qed.

(** ** The time freezer *)

Lemma py_max_Qc (u v : Qc) :
  (u <= py_max u v)%Qc /\ (v <= py_max u v)%Qc
  /\ (py_max u v = u \/ py_max u v = v).
Proof.
  unfold py_max. cbn [gt Qc_PyNum].
  destruct (Qc_ltb u v) eqn:E; qc_tests; repeat split; auto;
    try apply Qcle_refl; qc_order.
Qed.

(** The running maximum of [_get_drawable_duration], started at [init]. *)
Lemma running_max {S Ease : Type} (found : list (Animated.t Qc S Ease)) :
  forall init : Qc,
    let r := fold_left
               (fun duration animated =>
                  py_max duration (Animated.total_duration animated))
               found init in
    (init <= r)%Qc
    /\ Forall (fun animated => (Animated.total_duration animated <= r)%Qc) found
    /\ (r = init \/ In r (map Animated.total_duration found)).
Proof.
  induction found as [ | animated found IH ]; intro init; cbn [fold_left map].
  - split; [ apply Qcle_refl | split; [ constructor | now left ] ].
  - destruct (py_max_Qc init (Animated.total_duration animated))
      as (Hinit & Htotal & Hwhich).
    destruct (IH (py_max init (Animated.total_duration animated)))
      as (Hle & Hall & Hin).
    cbn zeta in *.
    split; [ | split ].
    + eapply Qcle_trans; eassumption.
    + constructor; [ eapply Qcle_trans; eassumption | exact Hall ].
    + destruct Hin as [Hin | Hin].
      * rewrite Hin. destruct Hwhich as [-> | ->]; [ now left | right; now left ].
      * right. now right.
Qed.

Section FrozenFacts.
Context {D S B Canvas Ease W : Type}
        `{Drawable Qc D B Canvas W} `{FindAnimated Qc D S Ease W}.

Lemma frozen_access (self : Frozen.t Qc D) (canvas : Canvas) (w : W) :
  let frozen_world := snd (set_time (Frozen._child self) (Frozen._t self) w) in
  Frozen.bounds self w = get_bounds (Frozen._child self) frozen_world
  /\ Frozen.children self w = get_children (Frozen._child self) frozen_world
  /\ Frozen.draw self canvas w = draw (Frozen._child self) canvas frozen_world.
Proof.
  unfold Frozen.bounds, Frozen.children, Frozen.draw, Frozen._time_freeze.
  rewrite !sbind_run. repeat split.
Qed.

Lemma frozen_default_time (child : D) (w : W) :
  let found := fst (find_all_Animated child w) in
  let r := Frozen._t (fst (Frozen.__init__ child None w)) in
  Frozen.__init__ child None w
  = (Frozen.Frozen child r, snd (find_all_Animated child w))
  /\ (0 <= r)%Qc
  /\ Forall (fun animated => (Animated.total_duration animated <= r)%Qc) found
  /\ (r = 0%Qc \/ In r (map Animated.total_duration found))
  /\ (found = [] -> r = 0%Qc).
Proof.
  unfold Frozen.__init__, _get_drawable_duration.
  rewrite !sbind_run. cbn [sret fst snd Frozen._t].
  destruct (running_max (fst (find_all_Animated child w)) 0%Qc)
    as (Hpos & Hall & Hin).
  cbn zeta in *. cbn [zero Qc_PyNum].
  repeat split; try assumption.
  intros ->. reflexivity.
Qed.
End FrozenFacts.

(** C8 (amended).  Every access to [bounds], [children] or [draw] of a
    [Frozen] first runs [set_time] on the child with the freeze time, and
    then makes the same access on the child in the heap that results.
    Built with an explicit time, the freezer keeps it.  Built without one,
    its freeze time is the largest of 0 and the [total_duration]s of the
    [Animated] objects found under the child: never negative, at least each
    of them, equal to 0 or to one of them, and 0 when none is found. *)
Theorem frozen_spec {D S B Canvas Ease W : Type}
    `{Drawable Qc D B Canvas W} `{FindAnimated Qc D S Ease W} :
  (forall (self : Frozen.t Qc D) (canvas : Canvas) (w : W),
      let frozen_world :=
        snd (set_time (Frozen._child self) (Frozen._t self) w) in
      Frozen.bounds self w = get_bounds (Frozen._child self) frozen_world
      /\ Frozen.children self w
         = get_children (Frozen._child self) frozen_world
      /\ Frozen.draw self canvas w
         = draw (Frozen._child self) canvas frozen_world)
  /\ (forall (child : D) (x : Qc) (w : W),
        Frozen.__init__ child (Some x) w = (Frozen.Frozen child x, w))
  /\ (forall (child : D) (w : W),
        let found := fst (find_all_Animated child w) in
        let r := Frozen._t (fst (Frozen.__init__ child None w)) in
        Frozen.__init__ child None w
        = (Frozen.Frozen child r, snd (find_all_Animated child w))
        /\ (0 <= r)%Qc
        /\ Forall (fun animated => (Animated.total_duration animated <= r)%Qc)
                  found
        /\ (r = 0%Qc \/ In r (map Animated.total_duration found))
        /\ (found = [] -> r = 0%Qc)).
Proof.
  split; [ exact frozen_access | split; [ | exact frozen_default_time ] ].
  intros child x w. reflexivity.
Qed.

Lemma frozen_spec_witness :
  let child := Clip "child" [] None in
  Frozen._t (fst (Frozen.__init__ child None empty_stage)) = 0%Qc.
Proof.
  intro child.
  apply (proj2 (proj2 (proj2 (proj2
           (proj2 (proj2 frozen_spec) child empty_stage))))).
  reflexivity.
Defined.

(** C8 as stated fails when every [Animated] found ends before time 0: for
    a child whose only [Animated] starts at -3 and lasts 1 second, the
    largest total duration is -2, and the freezer built without a time
    freezes at 0. *)
Lemma freeze_time_counterexample :
  let child := Clip "child" [early] None in
  Animated.__init__ [Key "A"; Key "B"] (Sequence [Qc_of_Z 1])
                    (Scalar "ease"%string) None (Qc_of_Z (-3))
  = Ok early
  /\ fst (find_all_Animated child empty_stage) = [early]
  /\ Animated.total_duration early = Qc_of_Z (-2)
  /\ Frozen._t (fst (Frozen.__init__ child None empty_stage)) = 0%Qc
  /\ Frozen._t (fst (Frozen.__init__ child None empty_stage))
     <> Animated.total_duration early.
Proof.
  intro child.
  split; [ reflexivity | split; [ reflexivity | split; [ | split ] ] ].
  - apply Qc_is_canon. reflexivity.
  - reflexivity.
  - intro E. apply (f_equal this) in E. vm_compute in E. discriminate E.
Qed.

(** ** The playbook *)

(** C9.  [Playbook.frozen] raises on every playbook and every drawable,
    with or without a time, whatever calling a resolved attribute would do:
    without a time the lookup of [_get_drawable_duration] fails, with one
    the lookup of [_get_drawable_at_t] fails; neither name is among the
    attributes of a [Playbook]. *)
Theorem playbook_frozen_raises {T D W : Type}
    (call0 : Playbook.attribute -> result T)
    (call1 : Playbook.attribute -> T -> result D)
    (self : Playbook.t T D W) (drawable : D) :
  Playbook.frozen call0 call1 self drawable None
  = Raise (AttributeError "_get_drawable_duration")
  /\ (forall x : T,
        Playbook.frozen call0 call1 self drawable (Some x)
        = Raise (AttributeError "_get_drawable_at_t"))
  /\ (forall x : option T,
        is_ok (Playbook.frozen call0 call1 self drawable x) = false)
  /\ (forall name : string,
        In name ["_get_drawable_duration"; "_get_drawable_at_t"]%string ->
        ~ In name (map fst Playbook.attributes)).
Proof.
  split; [ reflexivity | split; [ reflexivity | split ] ].
  - intros [ x | ]; reflexivity.
  - intros name [<- | [<- | []]] Hin; cbn in Hin;
      repeat (destruct Hin as [Hin | Hin]; [ discriminate Hin | ]);
      exact Hin.
Qed.

(** ** Rendering *)

Lemma py_range_length (n : Z) : length (py_range n) = Z.to_nat n.
Proof. unfold py_range. now rewrite length_map, length_seq. Qed.

Lemma py_range_bounds (n k : Z) : In k (py_range n) -> (0 <= k < n)%Z.
Proof.
  unfold py_range. rewrite in_map_iff. intros (i & <- & Hin).
  apply in_seq in Hin. lia.
Qed.

(** *** Binary64: the integers behind a [float] *)

Lemma digits2_pos_bound (m : positive) :
  (Zpos m < 2 ^ Zpos (digits2_pos m))%Z.
Proof.
  induction m as [ m IH | m IH | ]; cbn [digits2_pos];
    rewrite ?Pos2Z.inj_succ, ?Z.pow_succ_r by lia; lia.
Qed.

Lemma overflow_threshold_pos : (0 < overflow_threshold)%Z.
Proof. apply Z.ltb_lt. vm_compute. reflexivity. Qed.

Lemma largest_float_below_threshold :
  ((2 ^ 53 - 1) * 2 ^ 971 < overflow_threshold)%Z.
Proof. apply Z.ltb_lt. vm_compute. reflexivity. Qed.

(** The magnitude of a finite [float], truncated, is at most the largest
    [float]. *)
Lemma finite_magnitude (s : bool) (m : positive) (e : Z) :
  valid_binary (S754_finite s m e) = true ->
  (0 <= Z.shiftl (Zpos m) e <= (2 ^ 53 - 1) * 2 ^ 971)%Z.
Proof.
  unfold SpecFloat.valid_binary, bounded, canonical_mantissa, fexp.
  rewrite andb_true_iff, Z.eqb_eq, Z.leb_le.
  unfold SpecFloat.emin, prec, emax. intros [Hcanon Hexp].
  pose proof (digits2_pos_bound m) as Hm.
  assert (Hdigits : (Zpos (digits2_pos m) <= 53)%Z) by lia.
  assert (Hpow : (2 ^ Zpos (digits2_pos m) <= 2 ^ 53)%Z)
    by (apply Z.pow_le_mono_r; lia).
  assert (H971 : (0 < 2 ^ 971)%Z) by (apply Z.pow_pos_nonneg; lia).
  set (P := (2 ^ 53)%Z) in *. set (Q := (2 ^ 971)%Z) in *.
  split; [ apply Z.shiftl_nonneg; lia | ].
  destruct (Z.le_gt_cases 0 e) as [Hpos | Hneg].
  - rewrite Z.shiftl_mul_pow2 by exact Hpos.
    assert (Hle : (2 ^ e <= Q)%Z) by (apply Z.pow_le_mono_r; lia).
    assert (H0 : (0 < 2 ^ e)%Z) by (apply Z.pow_pos_nonneg; lia).
    nia.
  - rewrite Z.shiftl_div_pow2 by lia.
    assert (H0 : (0 < 2 ^ (- e))%Z) by (apply Z.pow_pos_nonneg; lia).
    assert (Hdiv : (Zpos m / 2 ^ (- e) <= Zpos m)%Z).
    { apply Z.div_le_upper_bound; [ exact H0 | nia ]. }
    nia.
Qed.

Lemma int_of_float_bound (x : float) (n : Z) :
  int_of_float x = Ok n -> (n < overflow_threshold)%Z.
Proof.
  unfold int_of_float. pose proof (Prim2SF_valid x) as Hvalid.
  destruct (Prim2SF x) as [ s | s | | s m e ]; try discriminate;
    intro E; injection E as <-.
  - exact overflow_threshold_pos.
  - pose proof (finite_magnitude s m e Hvalid) as Hmagnitude.
    pose proof largest_float_below_threshold as Hlargest.
    set (largest := ((2 ^ 53 - 1) * 2 ^ 971)%Z) in *.
    destruct s; lia.
Qed.

(** [range(int(x))] and [range(floor(x))] are the same indices: [int]
    truncates towards zero, and [range] of a number below 1 is empty.
    Both fail on the same [x], a NaN or an infinity, with the same
    exception. *)
Lemma float_floor_int (x : float) :
  match float_floor x with
  | Raise e => int_of_float x = Raise e
  | Ok n =>
      exists m : Z,
        int_of_float x = Ok m
        /\ py_range m = py_range n
        /\ ((0 <= n)%Z -> m = n)
  end.
Proof.
  unfold float_floor, int_of_float.
  destruct (Prim2SF x) as [ s | s | | s m e ]; try reflexivity.
  - exists 0%Z. repeat split.
  - destruct s.
    + eexists. split; [ reflexivity | ].
      assert (Hm : (0 <= Z.shiftl (Zpos m) e)%Z)
        by (apply Z.shiftl_nonneg; lia).
      assert (Hn : (Z.shiftl (Zneg m) e < 0)%Z).
      { destruct (Z.lt_ge_cases (Z.shiftl (Zneg m) e) 0) as [ | Hge ];
          [ assumption | ].
        apply Z.shiftl_nonneg in Hge. lia. }
      split; [ | lia ].
      unfold py_range.
      replace (Z.to_nat (- Z.shiftl (Zpos m) e)) with 0%nat by lia.
      replace (Z.to_nat (Z.shiftl (Zneg m) e)) with 0%nat by lia.
      reflexivity.
    + eexists. repeat split.
Qed.

(** At frame rate 0 the product is a zero or a NaN: there is no frame to
    divide for. *)
Lemma zero_times (d : float) (n : Z) :
  int_of_float (PrimFloat.mul PrimFloat.zero d) = Ok n -> n = 0%Z.
Proof.
  unfold int_of_float. rewrite mul_spec.
  replace (Prim2SF PrimFloat.zero) with (S754_zero false)
    by (vm_compute; reflexivity).
  destruct (Prim2SF d) as [ s | s | | s m e ]; cbn; congruence.
Qed.

Lemma int_truediv_ok (k fps : Z) :
  fps <> 0%Z -> (0 <= k < overflow_threshold)%Z ->
  int_truediv k fps = Ok (int_quotient k fps).
Proof.
  intros Hfps Hk. unfold int_truediv.
  destruct (Z.eqb_spec fps 0) as [ | _ ]; [ contradiction | ].
  destruct (Z.leb_spec (overflow_threshold * Z.abs fps) (Z.abs k))
    as [Hover | _]; [ | reflexivity ].
  pose proof overflow_threshold_pos. nia.
Qed.

Lemma float_of_int_0 : float_of_int 0 = Ok PrimFloat.zero.
Proof. reflexivity. Qed.

(** The conversions at work.  [3 / 10] is the [float] 0.3, which lies below
    three tenths; an odd integer beyond [2^53] is rounded; [10 * 0.7]
    rounds up to 7; [int] truncates where [floor] rounds down. *)
Lemma binary64_examples :
  int_truediv 3 10 = Ok 0.3%float
  /\ int_truediv 1 3 = Ok 0.33333333333333331%float
  /\ int_truediv 0 (-5) = Ok neg_zero
  /\ int_truediv 7 0 = Raise ZeroDivisionError
  /\ int_truediv (2 ^ 53 + 1) 1 = Ok 9007199254740992%float
  /\ int_truediv (2 ^ 1024) 1
     = Raise (OverflowError "integer division result too large for a float")
  /\ rbind (float_of_int 10) (fun f => int_of_float (f * 0.7)%float) = Ok 7%Z
  /\ int_of_float (-0.5)%float = Ok 0%Z
  /\ float_floor (-0.5)%float = Ok (-1)%Z.
Proof. repeat split; vm_compute; reflexivity. Qed.

(** *** The loop *)

Section RenderFacts.
Context {D B Canvas R Wr Img W : Type}
        `{Drawable float D B Canvas W} `{Renderer R D Img W}
        `{Writer Wr Img W}.
Variable scene : Scene.t float (State W D).
Variable filename : string.
Variable fps : Z.

(** Once the bounds are cached the loop crops every further frame to them
    and appends the pixels in the order of the indices. *)
Lemma render_loop_cached (renderer : R) (writer : Wr) (Hfps : fps <> 0%Z)
    (ks : list Z) :
  Forall (fun k => (0 <= k < overflow_threshold)%Z) ks ->
  forall (fixed_bounds : B) (appended : list Img) (w : W),
    let frames := spec_frames scene renderer writer fps fixed_bounds ks w in
    Scene.render_loop scene renderer writer fps ks (Some fixed_bounds)
                      appended w
    = (Ok (appended ++ fst frames), snd frames).
Proof.
  induction 1 as [ | k ks Hk _ IH ]; intros fixed_bounds appended w; cbn zeta.
  - cbn. now rewrite app_nil_r.
  - cbn [Scene.render_loop spec_frames]. rewrite (int_truediv_ok k fps Hfps Hk).
    unfold spec_frame. rewrite !sbind_run.
    destruct (Scene.make_frame scene (int_quotient k fps) w) as [frame w1].
    cbn [fst snd].
    destruct (crop frame fixed_bounds w1) as [cropped w3]. cbn [fst snd].
    destruct (renderer_render renderer cropped w3) as [[] w4]. cbn [fst snd].
    destruct (get_rendered_image renderer w4) as [px w5]. cbn [fst snd].
    destruct (append_data writer px w5) as [[] w6]. cbn [fst snd].
    rewrite IH. cbn [sret fst snd]. now rewrite <- app_assoc.
Qed.

Lemma spec_frames_length (renderer : R) (writer : Wr) (fixed_bounds : B)
    (ks : list Z) :
  forall w : W,
    length (fst (spec_frames scene renderer writer fps fixed_bounds ks w))
    = length ks.
Proof.
  induction ks as [ | k ks IH ]; intro w; [ reflexivity | ].
  cbn [spec_frames]. rewrite !sbind_run. cbn [sret fst length].
  now rewrite IH.
Qed.

Lemma spec_frames_sizes {Sz : Type} (dims : Img -> Sz) (size : B -> Sz)
    (renderer : R) (writer : Wr) (fixed_bounds : B) (ks : list Z) :
  renders_at_size dims size ->
  forall w : W,
    Forall (fun px => dims px = size fixed_bounds)
           (fst (spec_frames scene renderer writer fps fixed_bounds ks w)).
Proof.
  intro Hsize. induction ks as [ | k ks IH ]; intro w; [ constructor | ].
  cbn [spec_frames]. rewrite !sbind_run. cbn [sret fst].
  constructor; [ | apply IH ].
  unfold spec_frame. rewrite !sbind_run. apply Hsize.
Qed.

Lemma default_renderer (renderer : option R) (w : W) :
  match renderer with
  | None => Renderer_new w
  | Some r => (r, w)
  end = spec_renderer renderer w.
Proof. now destruct renderer. Qed.

(** Wherever [int(fps * duration)] is defined the loop runs to its end:
    the frame rate is not 0 when there is a frame to make, and no index
    is too large to divide. *)
Lemma indices_divide (n : Z) :
  rbind (float_of_int fps)
        (fun f => int_of_float (PrimFloat.mul f (Scene.duration scene)))
  = Ok n ->
  py_range n = []
  \/ (fps <> 0%Z
      /\ Forall (fun k => (0 <= k < overflow_threshold)%Z) (py_range n)).
Proof.
  intro Hcount. destruct (py_range n) as [ | k rest ] eqn:Eks;
    [ now left | right ].
  unfold rbind in Hcount.
  destruct (float_of_int fps) as [ f | ] eqn:Ef; [ | discriminate Hcount ].
  split.
  - intros ->. rewrite float_of_int_0 in Ef. injection Ef as <-.
    apply zero_times in Hcount. subst n. discriminate Eks.
  - rewrite <- Eks. apply Forall_forall. intros i Hi.
    apply py_range_bounds in Hi. apply int_of_float_bound in Hcount. lia.
Qed.

(** The loop of the source and the loop of the specification agree. *)
Lemma render_refines (renderer : option R) (progress_bar : bool) (n : Z)
    (w : W) :
  rbind (float_of_int fps)
        (fun f => int_of_float (PrimFloat.mul f (Scene.duration scene)))
  = Ok n ->
  let run := spec_render scene filename renderer fps n w in
  Scene.render scene filename renderer fps progress_bar w
  = (Ok (fst run), snd run).
Proof.
  intros Hcount run. subst run. unfold Scene.render. rewrite Hcount.
  unfold spec_render. rewrite !sbind_run, default_renderer.
  destruct (spec_renderer renderer w) as [r w1]. cbn [fst snd].
  destruct (get_writer filename fps w1) as [writer w2]. cbn [fst snd].
  destruct (indices_divide n Hcount) as [Enone | [Hnz Hks]].
  - rewrite Enone. cbn [Scene.render_loop sret fst snd].
    now destruct (writer_exit writer w2) as [[] w4].
  - destruct (py_range n) as [ | k rest ].
    + cbn [Scene.render_loop sret fst snd].
      now destruct (writer_exit writer w2) as [[] w4].
    + inversion Hks as [ | ? ? Hk Hrest ]; subst.
      cbn [Scene.render_loop]. rewrite (int_truediv_ok k fps Hnz Hk).
      rewrite !sbind_run.
      destruct (Scene.make_frame scene (int_quotient k fps) w2)
        as [frame w3].
      cbn [fst snd].
      destruct (get_bounds frame w3) as [fixed_bounds w4]. cbn [fst snd].
      destruct (crop frame fixed_bounds w4) as [cropped w5]. cbn [fst snd].
      destruct (renderer_render r cropped w5) as [[] w6]. cbn [fst snd].
      destruct (get_rendered_image r w6) as [px w7]. cbn [fst snd].
      destruct (append_data writer px w7) as [[] w8]. cbn [fst snd].
      rewrite (render_loop_cached r writer Hnz rest Hrest). cbn [sret fst snd app].
      now destruct (writer_exit writer _) as [[] w9].
Qed.

Lemma spec_render_range (renderer : option R) (m n : Z) :
  py_range m = py_range n ->
  spec_render scene filename renderer fps m
  = spec_render scene filename renderer fps n.
Proof. intro E. unfold spec_render. now rewrite E. Qed.

Lemma spec_render_length (renderer : option R) (n : Z) (w : W) :
  length (fst (spec_render scene filename renderer fps n w)) = Z.to_nat n.
Proof.
  rewrite <- py_range_length. unfold spec_render. rewrite !sbind_run.
  destruct (py_range n) as [ | k rest ]; [ reflexivity | ].
  rewrite !sbind_run. cbn [sret fst length]. now rewrite spec_frames_length.
Qed.

Lemma spec_render_sizes {Sz : Type} (dims : Img -> Sz) (size : B -> Sz)
    (renderer : option R) (n : Z) (w : W) :
  renders_at_size dims size ->
  let w0 := snd (spec_before_frames filename renderer fps w) in
  let frame := Scene.make_frame scene (int_quotient 0 fps) w0 in
  let fixed_bounds := fst (get_bounds (fst frame) (snd frame)) in
  Forall (fun px => dims px = size fixed_bounds)
         (fst (spec_render scene filename renderer fps n w)).
Proof.
  intros Hsize w0 frame fixed_bounds. subst w0 frame fixed_bounds.
  unfold spec_render, spec_before_frames, py_range. rewrite !sbind_run.
  destruct (Z.to_nat n) as [ | i ]; [ constructor | ].
  cbn [seq map]. change (Z.of_nat 0) with 0%Z.
  rewrite !sbind_run. cbn [sret fst].
  constructor; [ apply Hsize | now apply spec_frames_sizes ].
Qed.
End RenderFacts.

(** C6.  Whenever [floor(fps * duration)] is defined, [render] appends
    exactly that many frames (none when the number is not positive), in the
    order of the frame indices, to a sink opened before the first and
    closed after the last; frame [k] is the scene's frame at the [float]
    [k / fps]; the bounds are read once, from frame 0, and every frame,
    frame 0 included, is cropped to them before it is rendered.  When the
    collaborators rasterize a cropped drawable at the size of its crop, all
    frames have the size of the bounds of frame 0.  When the product
    [fps * duration] is a NaN or an infinity, [floor] and [int] raise
    alike, and [render] raises before it has touched a collaborator.  A
    duration of 2 at 10 frames per second gives 20 frames, all of the size
    of the bounds of frame 0. *)
Theorem render_spec {D B Canvas R Wr Img W : Type}
    `{Drawable float D B Canvas W} `{Renderer R D Img W} `{Writer Wr Img W}
    (scene : Scene.t float (State W D)) (filename : string)
    (renderer : option R) (fps : Z) (progress_bar : bool) (w : W) :
  let w0 := snd (spec_before_frames filename renderer fps w) in
  let frame := Scene.make_frame scene (int_quotient 0 fps) w0 in
  let fixed_bounds := fst (get_bounds (fst frame) (snd frame)) in
  match spec_total_frames scene fps with
  | Raise e =>
      Scene.render scene filename renderer fps progress_bar w = (Raise e, w)
  | Ok total_frames =>
      let run := spec_render scene filename renderer fps total_frames w in
      let frames := fst run in
      Scene.render scene filename renderer fps progress_bar w
      = (Ok frames, snd run)
      /\ length frames = Z.to_nat total_frames
      /\ ((0 <= total_frames)%Z -> Z.of_nat (length frames) = total_frames)
      /\ (forall (Sz : Type) (dims : Img -> Sz) (size : B -> Sz),
            renders_at_size dims size ->
            Forall (fun px => dims px = size fixed_bounds) frames)
  end
  /\ (Scene.duration scene = 2%float -> fps = 10%Z ->
        exists (frames : list Img) (w' : W),
          Scene.render scene filename renderer fps progress_bar w
          = (Ok frames, w')
          /\ length frames = 20%nat
          /\ (forall (Sz : Type) (dims : Img -> Sz) (size : B -> Sz),
                renders_at_size dims size ->
                Forall (fun px => dims px = size fixed_bounds) frames)).
Proof.
  intros w0 frame fixed_bounds. subst w0 frame fixed_bounds. split.
  - unfold spec_total_frames, rbind.
    destruct (float_of_int fps) as [ f | e ] eqn:Ef;
      [ | unfold Scene.render, rbind; now rewrite Ef ].
    pose proof (float_floor_int (PrimFloat.mul f (Scene.duration scene)))
      as Hfloor.
    destruct (float_floor (PrimFloat.mul f (Scene.duration scene)))
      as [ total_frames | e ];
      [ | unfold Scene.render, rbind; now rewrite Ef, Hfloor ].
    destruct Hfloor as (m & Hint & Hrange & _).
    assert (Hcount :
              rbind (float_of_int fps)
                (fun f => int_of_float
                            (PrimFloat.mul f (Scene.duration scene)))
              = Ok m)
      by (unfold rbind; now rewrite Ef).
    cbn zeta.
    rewrite <- (spec_render_range scene filename fps renderer m total_frames
                  Hrange).
    split; [ exact (render_refines scene filename fps renderer progress_bar
                      m w Hcount) | ].
    rewrite (spec_render_range scene filename fps renderer m total_frames
               Hrange).
    split; [ apply spec_render_length | split ].
    + intro Hpos. rewrite spec_render_length. now apply Z2Nat.id.
    + intros Sz dims size Hsize. now apply spec_render_sizes.
  - intros Hduration ->.
    assert (Hcount :
              rbind (float_of_int 10)
                (fun f => int_of_float
                            (PrimFloat.mul f (Scene.duration scene)))
              = Ok 20%Z)
      by (rewrite Hduration; vm_compute; reflexivity).
    exists (fst (spec_render scene filename renderer 10 20 w)),
           (snd (spec_render scene filename renderer 10 20 w)).
    split; [ exact (render_refines scene filename 10 renderer progress_bar
                      20 w Hcount) | split ].
    + now rewrite spec_render_length.
    + intros Sz dims size Hsize. now apply spec_render_sizes.
Qed.

Lemma studio_renders_at_size :
  renders_at_size (R := unit) (D := cel) (W := studio)
                  raster_size (fun b : float => b).
Proof. intros r d b w. reflexivity. Qed.

Lemma render_spec_witness :
  exists (frames : list raster) (w' : studio),
    Scene.render (rolling 2%float) "out.mp4" None 10 true empty_studio
    = (Ok frames, w')
    /\ length frames = 20%nat
    /\ Forall (fun px => raster_size px = 1%float) frames.
Proof.
  destruct (proj2 (render_spec (rolling 2%float) "out.mp4" None 10 true
                     empty_studio) eq_refl eq_refl)
    as (frames & w' & Hrender & Hcount & Hsizes).
  exists frames, w'. split; [ exact Hrender | split; [ exact Hcount | ] ].
  exact (Hsizes float raster_size (fun b => b) studio_renders_at_size).
Defined.

Lemma configuration_errors_witness :
  let self := Playbook.Playbook (T := Qc) 0%Qc [ticking] in
  Playbook._scenes self <> []
  /\ exists self', Playbook.freeze self (Qc_of_Z 5) = Ok self'.
Proof.
  intro self.
  assert (Hscenes : Playbook._scenes self <> []) by discriminate.
  split; [ exact Hscenes | ].
  exact (proj2 (proj1 (proj2 (proj2 (proj2
           (configuration_errors (T := Qc) (D := clip) (S := recorded)
              (Ease := string) (W := stage))))) self (Qc_of_Z 5)) Hscenes).
Defined.

Lemma playbook_frozen_raises_witness :
  In "_get_drawable_at_t"%string
     ["_get_drawable_duration"; "_get_drawable_at_t"]%string
  /\ ~ In "_get_drawable_at_t"%string (map fst Playbook.attributes).
Proof.
  assert (Hin : In "_get_drawable_at_t"%string
                   ["_get_drawable_duration"; "_get_drawable_at_t"]%string)
    by (right; left; reflexivity).
  split; [ exact Hin | ].
  exact (proj2 (proj2 (proj2
           (playbook_frozen_raises
              (fun _ => Ok 0%Qc) (fun _ _ => Ok still)
              (Playbook.Playbook (W := stage) 0%Qc []) still)))
           "_get_drawable_at_t"%string Hin).
Defined.

(** * Further properties of the module *)

(** ** Keyframe evaluation *)

Lemma Qc_div_unit (n d : Qc) :
  (0 <= n)%Qc -> (n < d)%Qc -> (0 <= n / d)%Qc /\ (n / d < 1)%Qc.
Proof.
  intros Hn Hd.
  assert (Hpos : (0 < d)%Qc) by (eapply Qcle_lt_trans; eassumption).
  assert (Hnz : d <> 0%Qc) by (intro E; subst d; qc_order).
  assert (Hback : (n / d * d = n)%Qc)
    by (rewrite Qcmult_comm; now apply Qcmult_div_r).
  split.
  - apply Qcnot_lt_le. intro Hneg.
    pose proof (Qcmult_lt_compat_r _ _ _ Hpos Hneg) as Hm.
    rewrite Hback, Qcmult_0_l in Hm.
    exact (Qcle_not_lt _ _ Hn Hm).
  - apply Qcnot_le_lt. intro Hge.
    pose proof (Qcmult_le_compat_r _ _ _ Hge (Qclt_le_weak _ _ Hpos)) as Hm.
    rewrite Hback, Qcmult_1_l in Hm.
    exact (Qcle_not_lt _ _ Hm Hd).
Qed.

(** X1.  Whenever an [Animated] that [__init__] has built interpolates, the
    progress it hands to [tween] lies in [[0, 1)]. *)
Theorem progress_in_unit_interval {D Ease : Type} `{Animatable Qc D Ease}
    (states : list D) (durations : scalar_or_seq Qc)
    (ease_types : scalar_or_seq Ease) (ease_fns : option (scalar_or_seq Ease))
    (start_time : Qc) (a : Animated.t Qc D Ease) (x : Qc) :
  Animated.__init__ states durations ease_types ease_fns start_time = Ok a ->
  (0 <= x - start_time)%Qc ->
  (x - start_time < py_sum (Animated._durations a))%Qc ->
  exists (s s' : D) (progress : Qc) (e : Ease),
    Animated._get_drawable_at_t a x = Ok (tween s s' progress e)
    /\ (0 <= progress)%Qc /\ (progress < 1)%Qc.
Proof.
  intros Hinit Hpos Hin.
  destruct (init_ok _ _ _ _ _ _ Hinit)
    as (_ & Hds & Hes & Hstates & _ & _ & Htotal & Hstart).
  rewrite <- Hstates in Hds, Hes. rewrite <- Hstart in *.
  destruct (eval_segment a x Hds Hes Htotal Hpos Hin)
    as (i & d & s & s' & e & Hseg).
  cbn zeta in Hseg.
  destruct Hseg as (_ & _ & _ & _ & Hlo & Hhi & _ & _ & _ & Heval).
  exists s, s', ((x - Animated._start_time a
                    - py_sum (firstn i (Animated._durations a))) / d)%Qc, e.
  split; [ exact Heval | ].
  apply Qc_div_unit; qc_order.
Qed.

Lemma progress_in_unit_interval_witness :
  exists (s s' : recorded) (progress : Qc) (e : string),
    Animated._get_drawable_at_t three_seconds (Qc_of_Z 2)
    = Ok (tween s s' progress e)
    /\ (0 <= progress)%Qc /\ (progress < 1)%Qc.
Proof.
  apply (progress_in_unit_interval
           [Key "A"; Key "B"] (Sequence [Qc_of_Z 3]) (Scalar "ease"%string)
           None 0%Qc three_seconds (Qc_of_Z 2) eq_refl).
  - unfold Qcle. cbn. discriminate.
  - unfold Qclt. cbn. reflexivity.
Defined.

(** X2.  With durations that are not negative, an [Animated] that
    [__init__] has built shows its last state at every time from
    [total_duration] on, and [frozen()] without a time returns that last
    state. *)
Theorem frozen_is_last_state {D Ease : Type} `{Animatable Qc D Ease}
    (states : list D) (durations : scalar_or_seq Qc)
    (ease_types : scalar_or_seq Ease) (ease_fns : option (scalar_or_seq Ease))
    (start_time : Qc) (a : Animated.t Qc D Ease) :
  Animated.__init__ states durations ease_types ease_fns start_time = Ok a ->
  Forall (fun d => (0 <= d)%Qc) (Animated._durations a) ->
  exists first rest,
    states = first :: rest
    /\ Animated.frozen a None = Ok (last rest first)
    /\ (forall x : Qc, (Animated.total_duration a <= x)%Qc ->
          Animated._get_drawable_at_t a x = Ok (last rest first)).
Proof.
  intros Hinit Hnonneg.
  destruct (init_ok _ _ _ _ _ _ Hinit)
    as (_ & Hds & Hes & Hstates & _ & _ & Htotal & Hstart).
  rewrite <- Hstates in Hds, Hes. rewrite <- Hstart in *.
  pose proof (fold_add_nonneg _ 0%Qc Hnonneg) as Hsum.
  change (fold_left Qcplus (Animated._durations a) 0%Qc)
    with (py_sum (Animated._durations a)) in Hsum.
  assert (Hlate : forall x : Qc, (Animated.total_duration a <= x)%Qc ->
            (0 <= x - Animated._start_time a)%Qc
            /\ (py_sum (Animated._durations a)
                <= x - Animated._start_time a)%Qc).
  { intros x Hx. unfold Animated.total_duration in Hx. rewrite Htotal in Hx.
    split; qc_order. }
  destruct (Animated._states a) as [ | first rest ] eqn:Es;
    [ cbn in Hds; lia | ].
  exists first, rest. split; [ now rewrite <- Hstates | ].
  assert (Heval : forall x : Qc, (Animated.total_duration a <= x)%Qc ->
            Animated._get_drawable_at_t a x = Ok (last rest first)).
  { intros x Hx. destruct (Hlate x Hx) as [Hpos Hend].
    destruct (eval_post_roll a x) as (f & r & Efr & E); try assumption;
      try (now rewrite Es).
    rewrite Es in Efr. injection Efr as <- <-. exact E. }
  split; [ | exact Heval ].
  unfold Animated.frozen. apply Heval. apply Qcle_refl.
Qed.

Lemma frozen_is_last_state_witness :
  exists first rest,
    [Key "A"; Key "B"] = first :: rest
    /\ Animated.frozen three_seconds None = Ok (last rest first)
    /\ (forall x : Qc, (Animated.total_duration three_seconds <= x)%Qc ->
          Animated._get_drawable_at_t three_seconds x = Ok (last rest first)).
Proof.
  apply (frozen_is_last_state
           [Key "A"; Key "B"] (Sequence [Qc_of_Z 3]) (Scalar "ease"%string)
           None 0%Qc three_seconds eq_refl).
  repeat constructor. unfold Qcle. cbn. discriminate.
Defined.

(** Without that condition the statement fails: one segment of -1 second
    makes [frozen()] return the first state. *)
Lemma frozen_of_negative_duration :
  Animated.__init__ [Key "A"; Key "B"] (Sequence [Qc_of_Z (-1)])
                    (Scalar "ease"%string) None 0%Qc
  = Ok (Animated.Animated [Key "A"; Key "B"] [Qc_of_Z (-1)] ["ease"%string]
                          (Qc_of_Z (-1) + 0)%Qc 0%Qc 0)
  /\ Animated.frozen
       (Animated.Animated [Key "A"; Key "B"] [Qc_of_Z (-1)] ["ease"%string]
                          (Qc_of_Z (-1) + 0)%Qc 0%Qc 0) None
     = Ok (Key "A").
Proof. split; reflexivity. Qed.

(** X3.  The start time only shifts the time axis: two [Animated] built
    from the same states, durations and eases, one starting at [s] and one
    at 0, agree when the first is asked at [t] and the second at [t - s]. *)
Theorem start_time_shifts {D Ease : Type} `{Animatable Qc D Ease}
    (states : list D) (durations : scalar_or_seq Qc)
    (ease_types : scalar_or_seq Ease) (ease_fns : option (scalar_or_seq Ease))
    (start_time : Qc) (a a0 : Animated.t Qc D Ease) (x : Qc) :
  Animated.__init__ states durations ease_types ease_fns start_time = Ok a ->
  Animated.__init__ states durations ease_types ease_fns 0%Qc = Ok a0 ->
  Animated._get_drawable_at_t a x
  = Animated._get_drawable_at_t a0 (x - start_time)%Qc.
Proof.
  intros Ha Ha0.
  destruct (init_ok _ _ _ _ _ _ Ha)
    as (_ & _ & _ & Hs & Hd & He & Ht & Hst).
  destruct (init_ok _ _ _ _ _ _ Ha0)
    as (_ & _ & _ & Hs0 & Hd0 & He0 & Ht0 & Hst0).
  unfold Animated._get_drawable_at_t. cbn [lt ge sub zero Qc_PyNum].
  rewrite Ht, Ht0, Hst, Hst0, !Qc_add_sub, Qc_sub_0_r.
  rewrite Hs, Hs0, He, He0. rewrite Hd0, <- Hd. reflexivity.
Qed.

Lemma start_time_shifts_witness :
  Animated._get_drawable_at_t early (Qc_of_Z (-2))
  = Animated._get_drawable_at_t
      (Animated.Animated [Key "A"; Key "B"] [Qc_of_Z 1] ["ease"%string]
                         (Qc_of_Z 1 + 0)%Qc 0%Qc 0)
      (Qc_of_Z (-2) - Qc_of_Z (-3))%Qc.
Proof.
  exact (start_time_shifts
           [Key "A"; Key "B"] (Sequence [Qc_of_Z 1]) (Scalar "ease"%string)
           None (Qc_of_Z (-3)) early _ (Qc_of_Z (-2)) eq_refl eq_refl).
Defined.

Lemma Qc_of_Z_succ (n : nat) :
  Qc_of_Z (Z.of_nat (S n)) = (Qc_of_Z (Z.of_nat n) + 1)%Qc.
Proof.
  apply Qc_is_canon. unfold Qc_of_Z. qc_to_q.
  rewrite Nat2Z.inj_succ. unfold Z.succ. rewrite inject_Z_plus. reflexivity.
Qed.

Lemma sum_of_repeat (d : Qc) (n : nat) :
  forall acc : Qc,
    fold_left Qcplus (repeat d n) acc = (acc + Qc_of_Z (Z.of_nat n) * d)%Qc.
Proof.
  induction n as [ | n IH ]; intro acc.
  - cbn [repeat fold_left]. change (Qc_of_Z (Z.of_nat 0)) with 0%Qc. ring.
  - cbn [repeat fold_left]. rewrite IH, Qc_of_Z_succ. ring.
Qed.

Lemma Qc_of_Z_mult (x y : Z) :
  Qc_of_Z (x * y) = (Qc_of_Z x * Qc_of_Z y)%Qc.
Proof.
  apply Qc_is_canon. unfold Qc_of_Z. qc_to_q.
  rewrite inject_Z_mult. reflexivity.
Qed.

(** X4.  A single [int] duration [d] given for [n] states is used for each
    of the [n - 1] segments, and the total duration is
    [(n - 1) * d + start_time]. *)
Theorem scalar_duration_total {D Ease : Type} `{Animatable Qc D Ease}
    (states : list D) (d : Z)
    (ease_types : scalar_or_seq Ease) (ease_fns : option (scalar_or_seq Ease))
    (start_time : Qc) (a : Animated.t Qc D Ease) :
  Animated.__init__ states (Scalar (Qc_of_Z d)) ease_types ease_fns start_time
  = Ok a ->
  Animated._durations a = repeat (Qc_of_Z d) (length states - 1)
  /\ Animated.total_duration a
     = (Qc_of_Z (Z.of_nat (length states - 1) * d) + start_time)%Qc.
Proof.
  intro Hinit.
  destruct (init_ok _ _ _ _ _ _ Hinit)
    as (_ & _ & _ & _ & Hd & _ & Ht & _).
  split; [ exact Hd | ].
  unfold Animated.total_duration. rewrite Ht, Hd.
  cbn [Animated.broadcast]. unfold py_sum. cbn [add zero Qc_PyNum].
  rewrite sum_of_repeat, Qc_of_Z_mult. ring.
Qed.

Lemma scalar_duration_total_witness :
  exists a : Animated.t Qc recorded string,
    Animated.__init__ [Key "A"; Key "B"; Key "C"] (Scalar (Qc_of_Z 3))
                      (Scalar "ease"%string) None (Qc_of_Z 5) = Ok a
    /\ Animated.total_duration a = (Qc_of_Z (Z.of_nat 2 * 3) + Qc_of_Z 5)%Qc.
Proof.
  eexists. split; [ reflexivity | ].
  exact (proj2 (scalar_duration_total
                  [Key "A"; Key "B"; Key "C"] 3
                  (Scalar "ease"%string) None (Qc_of_Z 5) _ eq_refl)).
Defined.

(** ** The duration of a drawable *)

Lemma running_max_incl {S Ease : Type}
    (found found' : list (Animated.t Qc S Ease)) :
  incl found found' ->
  (fold_left (fun duration animated =>
                py_max duration (Animated.total_duration animated))
             found 0
   <= fold_left (fun duration animated =>
                   py_max duration (Animated.total_duration animated))
                found' 0)%Qc.
Proof.
  intro Hincl.
  destruct (running_max found 0%Qc) as (_ & _ & Hin).
  destruct (running_max found' 0%Qc) as (Hpos' & Hall' & _).
  cbn zeta in *. destruct Hin as [-> | Hin]; [ exact Hpos' | ].
  apply in_map_iff in Hin as (animated & <- & Hin).
  rewrite Forall_forall in Hall'. apply Hall'. now apply Hincl.
Qed.

(** X5.  [_get_drawable_duration] depends only on which [Animated] objects
    are found, not on their order or on repeats, and finding more of them
    never lowers it. *)
Theorem drawable_duration_monotone {D S Ease W : Type}
    `{FindAnimated Qc D S Ease W} (d d' : D) (w w' : W) :
  let found := fst (find_all_Animated d w) in
  let found' := fst (find_all_Animated d' w') in
  (incl found found' ->
     (fst (_get_drawable_duration d w)
      <= fst (_get_drawable_duration d' w'))%Qc)
  /\ (incl found found' -> incl found' found ->
        fst (_get_drawable_duration d w)
        = fst (_get_drawable_duration d' w')).
Proof.
  intros found found'. subst found found'.
  unfold _get_drawable_duration. rewrite !sbind_run. cbn [sret fst].
  split.
  - apply running_max_incl.
  - intros H1 H2. apply Qcle_antisym; now apply running_max_incl.
Qed.

Lemma drawable_duration_monotone_witness :
  (fst (_get_drawable_duration (Clip "one" [three_seconds] None) empty_stage)
   <= fst (_get_drawable_duration
             (Clip "two" [four_seconds; three_seconds; early] None)
             empty_stage))%Qc.
Proof.
  apply (proj1 (drawable_duration_monotone
                  (Clip "one" [three_seconds] None)
                  (Clip "two" [four_seconds; three_seconds; early] None)
                  empty_stage empty_stage)).
  intros animated [<- | []]. right. left. reflexivity.
Defined.

(** ** More of the scene algebra *)

(** X6.  Reversing twice gives back the scene: the same duration and, in
    exact arithmetic, the same frame at every time. *)
Theorem reverse_involutive (F : Type) (s : Scene.t Qc F) (x : Qc) :
  Scene.duration (Scene.reverse (Scene.reverse s)) = Scene.duration s
  /\ Scene.make_frame (Scene.reverse (Scene.reverse s)) x
     = Scene.make_frame s x.
Proof.
  split; [ reflexivity | ].
  unfold Scene.reverse, Scene.make_frame, Scene.duration.
  cbn [Scene._make_frame Scene._duration sub Qc_PyNum].
  f_equal. ring.
Qed.

(** X7.  A held frame stays held: freezing a frozen scene, or reversing
    one, shows the frame [s._make_frame(s.duration)] of the scene first
    frozen, at every time; and freezing a reversed scene holds the frame of
    the original scene at time 0. *)
Theorem held_frame_compositions (F : Type) (s : Scene.t Qc F) (d d' x : Qc) :
  Scene.make_frame (Scene.freeze (Scene.freeze s d) d') x
  = Scene.make_frame s (Scene.duration s)
  /\ Scene.make_frame (Scene.reverse (Scene.freeze s d)) x
     = Scene.make_frame s (Scene.duration s)
  /\ Scene.duration (Scene.reverse (Scene.freeze s d)) = d
  /\ Scene.make_frame (Scene.freeze (Scene.reverse s) d) x
     = Scene.make_frame s 0%Qc.
Proof.
  split; [ reflexivity | split; [ reflexivity | split; [ reflexivity | ] ] ].
  unfold Scene.freeze, Scene.reverse, Scene.make_frame, Scene.duration.
  cbn [Scene._make_frame Scene._duration sub Qc_PyNum].
  now rewrite Qc_sub_diag.
Qed.

(** X8.  A scene of duration 0 in front changes nothing from time 0 on (it
    is asked only for negative times); appended at the end it changes
    nothing before the end, and takes over from there. *)
Theorem concat_zero_duration (F : Type) (s : Scene.t Qc F) (g : Qc -> F) :
  let nothing := Scene.Scene 0%Qc g in
  Scene.duration (Scene.concat nothing s) = Scene.duration s
  /\ Scene.duration (Scene.concat s nothing) = Scene.duration s
  /\ (forall x : Qc, (0 <= x)%Qc ->
        Scene.make_frame (Scene.concat nothing s) x = Scene.make_frame s x)
  /\ (forall x : Qc, (x < 0)%Qc ->
        Scene.make_frame (Scene.concat nothing s) x = g x)
  /\ (forall x : Qc, (x < Scene.duration s)%Qc ->
        Scene.make_frame (Scene.concat s nothing) x = Scene.make_frame s x)
  /\ (forall x : Qc, (Scene.duration s <= x)%Qc ->
        Scene.make_frame (Scene.concat s nothing) x
        = g (x - Scene.duration s)%Qc).
Proof.
  intro nothing. subst nothing.
  split; [ | split; [ | split; [ | split; [ | split ] ] ] ].
  - rewrite concat_duration. cbn [add Qc_PyNum Scene.duration Scene._duration].
    ring.
  - rewrite concat_duration. cbn [add Qc_PyNum Scene.duration Scene._duration].
    ring.
  - intros x Hx. rewrite concat_frame.
    cbn [lt sub Qc_PyNum Scene.duration Scene._duration].
    apply Qc_ltb_false in Hx. rewrite Hx. f_equal. ring.
  - intros x Hx. rewrite concat_frame.
    cbn [lt sub Qc_PyNum Scene.duration Scene._duration].
    apply Qc_ltb_true in Hx. now rewrite Hx.
  - intros x Hx. rewrite concat_frame. cbn [lt Qc_PyNum].
    apply Qc_ltb_true in Hx. now rewrite Hx.
  - intros x Hx. rewrite concat_frame. cbn [lt sub Qc_PyNum].
    apply Qc_ltb_false in Hx. now rewrite Hx.
Qed.

Lemma concat_zero_duration_witness :
  let s := Scene.Scene (Qc_of_Z 2) (fun x : Qc => (x, true)) in
  let nothing := Scene.Scene 0%Qc (fun x : Qc => (x, false)) in
  Scene.make_frame (Scene.concat nothing s) (Qc_of_Z 1)
  = Scene.make_frame s (Qc_of_Z 1)
  /\ Scene.make_frame (Scene.concat s nothing) (Qc_of_Z 1)
     = Scene.make_frame s (Qc_of_Z 1).
Proof.
  intros s nothing.
  destruct (concat_zero_duration (Qc * bool) s (fun x : Qc => (x, false)))
    as (_ & _ & Hfront & _ & Hback & _).
  split.
  - apply Hfront. unfold Qcle. cbn. discriminate.
  - apply Hback. unfold Qclt. cbn. reflexivity.
Defined.

(** X9.  Reversing a concatenation plays the reversed scenes in the other
    order, except at the seam: away from [t = b.duration] the frames of
    [reverse(a + b)] and of [reverse(b) + reverse(a)] are the same calls,
    and the durations agree; at the seam the first asks [b] for its frame at
    0 and the second asks [a] for its frame at [a.duration]. *)
Theorem reverse_concat (F : Type) (a b : Scene.t Qc F) :
  Scene.duration (Scene.reverse (Scene.concat a b))
  = Scene.duration (Scene.concat (Scene.reverse b) (Scene.reverse a))
  /\ (forall x : Qc, x <> Scene.duration b ->
        Scene.make_frame (Scene.reverse (Scene.concat a b)) x
        = Scene.make_frame (Scene.concat (Scene.reverse b) (Scene.reverse a)) x)
  /\ Scene.make_frame (Scene.reverse (Scene.concat a b)) (Scene.duration b)
     = Scene.make_frame b 0%Qc
  /\ Scene.make_frame (Scene.concat (Scene.reverse b) (Scene.reverse a))
                      (Scene.duration b)
     = Scene.make_frame a (Scene.duration a).
Proof.
  assert (Hrev : forall (s : Scene.t Qc F) (x : Qc),
             Scene.make_frame (Scene.reverse s) x
             = Scene.make_frame s (Scene.duration s - x)%Qc)
    by reflexivity.
  assert (Hdur : forall s : Scene.t Qc F,
             Scene.duration (Scene.reverse s) = Scene.duration s)
    by reflexivity.
  split; [ | split; [ | split ] ].
  - rewrite Hdur, !concat_duration, !Hdur. cbn [add Qc_PyNum]. ring.
  - intros x Hx.
    rewrite Hrev, !concat_frame, !Hrev, !Hdur, concat_duration.
    cbn [lt sub add Qc_PyNum].
    destruct (Qc_ltb (Scene.duration a + Scene.duration b - x)
                     (Scene.duration a)) eqn:E1;
      destruct (Qc_ltb x (Scene.duration b)) eqn:E2; qc_tests.
    + exfalso. qc_order.
    + f_equal. ring.
    + f_equal. ring.
    + exfalso. apply Hx. apply Qcle_antisym; qc_order.
  - rewrite Hrev, concat_frame, concat_duration. cbn [lt sub add Qc_PyNum].
    replace (Scene.duration a + Scene.duration b - Scene.duration b)%Qc
      with (Scene.duration a) by ring.
    replace (Qc_ltb (Scene.duration a) (Scene.duration a)) with false
      by (symmetry; apply Qc_ltb_false, Qcle_refl).
    f_equal. ring.
  - rewrite concat_frame, !Hrev, !Hdur. cbn [lt sub Qc_PyNum].
    replace (Qc_ltb (Scene.duration b) (Scene.duration b)) with false
      by (symmetry; apply Qc_ltb_false, Qcle_refl).
    f_equal. ring.
Qed.

Lemma reverse_concat_witness :
  let a := Scene.Scene (Qc_of_Z 2) (fun x : Qc => (x, false)) in
  let b := Scene.Scene (Qc_of_Z 3) (fun x : Qc => (x, true)) in
  Qc_of_Z 1 <> Scene.duration b
  /\ Scene.make_frame (Scene.reverse (Scene.concat a b)) (Qc_of_Z 1)
     = Scene.make_frame (Scene.concat (Scene.reverse b) (Scene.reverse a))
                        (Qc_of_Z 1).
Proof.
  intros a b.
  assert (Hx : Qc_of_Z 1 <> Scene.duration b)
    by (intro E; apply Qc_of_Z_inj in E; discriminate E).
  split; [ exact Hx | ].
  exact (proj1 (proj2 (reverse_concat (Qc * bool) a b)) (Qc_of_Z 1) Hx).
Defined.

(** ** The timeline of a playbook *)

Section CursorFacts.
Context {T : Type} {num : PyNum T} {D S B Canvas Ease W : Type}
        {drawables : Drawable T D B Canvas W}
        {finder : FindAnimated T D S Ease W}.

Lemma py_sum_snoc (xs : list T) (x : T) :
  py_sum (xs ++ [x]) = add (py_sum xs) x.
Proof. unfold py_sum. now rewrite fold_left_app. Qed.

Lemma cursor_after_append (self : Playbook.t T D W)
    (scene : Scene.t T (State W D)) :
  cursor_is_total self ->
  cursor_is_total
    (Playbook.Playbook (add (Playbook._cursor self) (Scene.duration scene))
                       (Playbook._scenes self ++ [scene])).
Proof.
  unfold cursor_is_total. cbn [Playbook._cursor Playbook._scenes].
  intros ->. rewrite map_app. cbn [map]. now rewrite py_sum_snoc.
Qed.

Lemma freeze_ok (self self' : Playbook.t T D W) (duration : T) :
  Playbook.freeze self duration = Ok self' ->
  exists last_scene,
    py_last (Playbook._scenes self) = Ok last_scene
    /\ self' = Playbook.Playbook
                 (add (Playbook._cursor self) duration)
                 (Playbook._scenes self
                    ++ [Scene.freeze last_scene duration]).
Proof.
  unfold Playbook.freeze.
  destruct (length (Playbook._scenes self) =? 0)%nat; [ discriminate | ].
  destruct (py_last (Playbook._scenes self)) as [ last_scene | e ];
    cbn [rbind]; [ | discriminate ].
  intro E. injection E as <-. now exists last_scene.
Qed.

Lemma play_run (self : Playbook.t T D W) (drawable : D) (duration : option T)
    (w : W) :
  let chosen :=
    match duration with
    | None => _get_drawable_duration drawable w
    | Some d => (d, w)
    end in
  Playbook.play self drawable duration w
  = (Playbook.Playbook
       (add (Playbook._cursor self) (fst chosen))
       (Playbook._scenes self
          ++ [Scene.Scene (fst chosen)
                (fun x => sbind (set_time drawable x)
                                (fun _ => sret drawable))]),
     snd chosen).
Proof.
  unfold Playbook.play. rewrite sbind_run.
  destruct duration as [ d | ]; reflexivity.
Qed.
End CursorFacts.

(** X10.  The cursor of a playbook is the sum of the durations of its
    scenes: this holds for the playbook [__init__] hands to the timeline
    hook, and [add_scene], [freeze] and [play] keep it. *)
Theorem cursor_invariant {T : Type} {num : PyNum T}
    {D S B Canvas Ease W : Type}
    {drawables : Drawable T D B Canvas W}
    {finder : FindAnimated T D S Ease W} :
  cursor_is_total (Playbook.Playbook (D := D) (W := W) zero [])
  /\ (forall self : Playbook.t T D W,
        cursor_is_total self ->
        (forall scene, cursor_is_total (Playbook.add_scene self scene))
        /\ (forall duration self',
              Playbook.freeze self duration = Ok self' ->
              cursor_is_total self')
        /\ (forall drawable duration w,
              cursor_is_total (fst (Playbook.play self drawable duration w)))).
Proof.
  split; [ reflexivity | ].
  intros self Hself. split; [ | split ].
  - intro scene. now apply cursor_after_append.
  - intros duration self' E.
    destruct (freeze_ok self self' duration E) as (last_scene & _ & ->).
    exact (cursor_after_append self (Scene.freeze last_scene duration) Hself).
  - intros drawable duration w. rewrite play_run. cbn [fst].
    exact (cursor_after_append self (Scene.Scene _ _) Hself).
Qed.

Lemma cursor_invariant_witness :
  cursor_is_total
    (fst (Playbook.play (Playbook.Playbook 0%Qc []) moving None empty_stage)).
Proof.
  apply (proj2 cursor_invariant (Playbook.Playbook 0%Qc [])).
  exact (proj1 cursor_invariant).
Defined.

Lemma Forall_firstn_skipn {A : Type} (P : A -> Prop) (n : nat) (l : list A) :
  Forall P l -> Forall P (firstn n l) /\ Forall P (skipn n l).
Proof.
  intro Hl. rewrite <- (firstn_skipn n l) in Hl. now apply Forall_app in Hl.
Qed.

Section TimelineFacts.
Context {F : Type}.

Lemma combined_duration_fold (rest : list (Scene.t Qc F)) :
  forall first : Scene.t Qc F,
    Scene.duration (fold_left Scene.concat rest first)
    = fold_left Qcplus (map Scene.duration rest) (Scene.duration first).
Proof.
  induction rest as [ | s rest IH ]; intro first; [ reflexivity | ].
  cbn [fold_left map]. now rewrite IH.
Qed.

Lemma py_sum_cons (d : Qc) (ds : list Qc) :
  py_sum (d :: ds) = fold_left Qcplus ds d.
Proof.
  unfold py_sum. cbn [fold_left add zero Qc_PyNum]. now rewrite Qcplus_0_l.
Qed.

Lemma combined_duration (first : Scene.t Qc F) (rest : list (Scene.t Qc F)) :
  Scene.duration (fold_left Scene.concat rest first)
  = py_sum (map Scene.duration (first :: rest)).
Proof. cbn [map]. now rewrite py_sum_cons, combined_duration_fold. Qed.

Lemma py_sum_app_le (xs ys : list Qc) :
  Forall (fun d => (0 <= d)%Qc) ys -> (py_sum xs <= py_sum (xs ++ ys))%Qc.
Proof.
  intro Hys. unfold py_sum. rewrite fold_left_app. now apply fold_add_nonneg.
Qed.

(** With durations that are not negative the scenes start one after the
    other. *)
Lemma scene_start_monotone (scenes : list (Scene.t Qc F)) (m n : nat) :
  Forall (fun s => (0 <= Scene.duration s)%Qc) scenes ->
  (m <= n)%nat ->
  (scene_start scenes m <= scene_start scenes n)%Qc.
Proof.
  intros Hnonneg Hmn. unfold scene_start.
  rewrite <- (firstn_skipn m (firstn n scenes)), firstn_firstn.
  replace (Nat.min m n) with m by lia.
  rewrite map_app. apply py_sum_app_le.
  apply Forall_map.
  apply (Forall_firstn_skipn _ m). apply (Forall_firstn_skipn _ n).
  exact Hnonneg.
Qed.

Lemma scene_start_succ (scenes : list (Scene.t Qc F)) (k : nat)
    (sk : Scene.t Qc F) :
  nth_error scenes k = Some sk ->
  scene_start scenes (S k) = (scene_start scenes k + Scene.duration sk)%Qc.
Proof.
  intro Hk. unfold scene_start.
  assert (E : firstn (S k) scenes = firstn k scenes ++ [sk]).
  { revert k Hk. induction scenes as [ | s scenes IH ]; intros [ | k ] Hk;
      try discriminate Hk.
    - cbn in Hk. injection Hk as ->. reflexivity.
    - cbn [firstn app]. f_equal. apply IH. exact Hk. }
  rewrite E, map_app. cbn [map]. unfold py_sum.
  now rewrite fold_left_app.
Qed.

Lemma scene_start_prefix (scenes : list (Scene.t Qc F)) (s : Scene.t Qc F)
    (k : nat) :
  (k <= length scenes)%nat ->
  scene_start (scenes ++ [s]) k = scene_start scenes k.
Proof.
  intro Hk. unfold scene_start. rewrite firstn_app.
  replace (k - length scenes)%nat with 0%nat by lia.
  cbn [firstn]. now rewrite app_nil_r.
Qed.

Lemma scene_start_all (scenes : list (Scene.t Qc F)) :
  scene_start scenes (length scenes) = py_sum (map Scene.duration scenes).
Proof. unfold scene_start. now rewrite firstn_all. Qed.

(** The frame of a chain of concatenations, found by the scene whose turn
    it is. *)
Lemma chain_lookup (rest : list (Scene.t Qc F)) :
  forall (first : Scene.t Qc F) (k : nat) (sk : Scene.t Qc F) (x : Qc),
    Forall (fun s => (0 <= Scene.duration s)%Qc) (first :: rest) ->
    nth_error (first :: rest) k = Some sk ->
    (k = 0%nat \/ (scene_start (first :: rest) k <= x)%Qc) ->
    (k = length rest
     \/ (x < scene_start (first :: rest) k + Scene.duration sk)%Qc) ->
    Scene.make_frame (fold_left Scene.concat rest first) x
    = Scene.make_frame sk (x - scene_start (first :: rest) k)%Qc.
Proof.
  induction rest as [ | s rest IH ] using rev_ind;
    intros first k sk x Hnonneg Hk Hlo Hhi.
  - destruct k as [ | k ]; [ | destruct k; discriminate Hk ].
    cbn in Hk. injection Hk as <-. cbn [fold_left].
    f_equal. unfold scene_start. cbn. ring.
  - rewrite fold_left_app. cbn [fold_left]. rewrite concat_frame.
    cbn [lt sub Qc_PyNum]. rewrite combined_duration.
    rewrite <- (scene_start_all (first :: rest)).
    change (first :: rest ++ [s]) with ((first :: rest) ++ [s]) in *.
    assert (Hprefix : Forall (fun s => (0 <= Scene.duration s)%Qc)
                             (first :: rest))
      by (apply Forall_app in Hnonneg; tauto).
    destruct (Nat.eq_dec k (length (first :: rest))) as [-> | Hne].
    + rewrite nth_error_app2, Nat.sub_diag in Hk by lia.
      cbn in Hk. injection Hk as <-.
      rewrite scene_start_prefix in * by lia.
      destruct Hlo as [Hlo | Hlo]; [ cbn in Hlo; lia | ].
      apply Qc_ltb_false in Hlo. now rewrite Hlo.
    + assert (Hlt : (k < length (first :: rest))%nat).
      { assert (Hk' : (k < length ((first :: rest) ++ [s]))%nat)
          by (apply nth_error_Some; congruence).
        rewrite length_app in Hk'. cbn [length] in *. lia. }
      rewrite nth_error_app1 in Hk by exact Hlt.
      rewrite scene_start_prefix in * by lia.
      destruct Hhi as [Hhi | Hhi];
        [ rewrite length_app in Hhi; cbn [length] in *; lia | ].
      assert (Hin : (x < scene_start (first :: rest)
                                     (length (first :: rest)))%Qc).
      { eapply Qclt_le_trans; [ exact Hhi | ].
        rewrite <- (scene_start_succ _ _ _ Hk).
        apply scene_start_monotone; [ exact Hprefix | lia ]. }
      apply Qc_ltb_true in Hin as Hin'. rewrite Hin'.
      apply IH; auto.
Qed.
End TimelineFacts.

Lemma combined_scene_ok {D W : Type} (self : Playbook.t Qc D W)
    (scene : Scene.t Qc (State W D)) :
  Playbook.combined_scene self = Ok scene ->
  exists first rest,
    Playbook._scenes self = first :: rest
    /\ scene = fold_left Scene.concat rest first.
Proof.
  unfold Playbook.combined_scene.
  destruct (Playbook._scenes self) as [ | first rest ]; [ discriminate | ].
  cbn. intro E. injection E as <-. now exists first, rest.
Qed.

(** X11.  The combined scene of a playbook lasts as long as the sum of the
    durations of its scenes, which is what the cursor has counted. *)
Theorem combined_duration_is_cursor {D W : Type} (self : Playbook.t Qc D W) :
  cursor_is_total self -> Playbook._scenes self <> [] ->
  exists scene,
    Playbook.combined_scene self = Ok scene
    /\ Scene.duration scene = Playbook._cursor self
    /\ Scene.duration scene
       = py_sum (map Scene.duration (Playbook._scenes self)).
Proof.
  intros Hcursor Hne. unfold cursor_is_total in Hcursor.
  destruct (Playbook._scenes self) as [ | first rest ] eqn:Es; [ easy | ].
  exists (fold_left Scene.concat rest first).
  split; [ | split ].
  - unfold Playbook.combined_scene. now rewrite Es.
  - now rewrite Hcursor, combined_duration.
  - apply combined_duration.
Qed.

Lemma demo_timeline_runs :
  exists self w,
    Playbook.__init__ demo_timeline empty_stage = Ok (self, w)
    /\ length (Playbook._scenes self) = 3%nat
    /\ Playbook._cursor self = Qc_of_Z 9.
Proof.
  eexists. eexists. split; [ reflexivity | split; [ reflexivity | ] ].
  apply Qc_is_canon. reflexivity.
Qed.

Lemma combined_duration_is_cursor_witness :
  match Playbook.__init__ demo_timeline empty_stage with
  | Ok (self, _) =>
      exists scene,
        Playbook.combined_scene self = Ok scene
        /\ Scene.duration scene = Playbook._cursor self
        /\ Scene.duration scene
           = py_sum (map Scene.duration (Playbook._scenes self))
  | Raise _ => False
  end.
Proof.
  destruct (Playbook.__init__ demo_timeline empty_stage)
    as [ [self w] | e ] eqn:Hrun; [ | discriminate Hrun ].
  injection Hrun as Hself _.
  apply combined_duration_is_cursor; subst self.
  - unfold cursor_is_total. apply Qc_is_canon. reflexivity.
  - discriminate.
Defined.

(** X12.  The combined scene of a playbook whose scenes have durations that
    are not negative plays them in order: a time within the turn of scene
    [k], counted from the sum of the durations before it, is answered by
    scene [k] at the time since its start.  Times before 0 go to the first
    scene and times from the end on to the last. *)
Theorem combined_scene_lookup {D W : Type} (self : Playbook.t Qc D W)
    (scene sk : Scene.t Qc (State W D)) (k : nat) (x : Qc) :
  Playbook.combined_scene self = Ok scene ->
  Forall (fun s => (0 <= Scene.duration s)%Qc) (Playbook._scenes self) ->
  nth_error (Playbook._scenes self) k = Some sk ->
  (k = 0%nat \/ (scene_start (Playbook._scenes self) k <= x)%Qc) ->
  (S k = length (Playbook._scenes self)
   \/ (x < scene_start (Playbook._scenes self) k + Scene.duration sk)%Qc) ->
  Scene.make_frame scene x
  = Scene.make_frame sk (x - scene_start (Playbook._scenes self) k)%Qc.
Proof.
  intros Hscene Hnonneg Hk Hlo Hhi.
  destruct (combined_scene_ok self scene Hscene) as (first & rest & Es & ->).
  rewrite Es in *. apply chain_lookup; try assumption.
  destruct Hhi as [Hhi | Hhi]; [ left; cbn [length] in Hhi; lia | now right ].
Qed.

Lemma combined_scene_lookup_witness :
  let self := Playbook.Playbook (T := Qc) (Qc_of_Z 4)
                [ticking; Scene.freeze ticking (Qc_of_Z 2)] in
  exists scene,
    Playbook.combined_scene self = Ok scene
    /\ Scene.make_frame scene (Qc_of_Z 3)
       = Scene.make_frame (Scene.freeze ticking (Qc_of_Z 2))
           (Qc_of_Z 3 - scene_start (Playbook._scenes self) 1)%Qc.
Proof.
  intro self. eexists. split; [ reflexivity | ].
  apply (combined_scene_lookup self _ (Scene.freeze ticking (Qc_of_Z 2)) 1
           (Qc_of_Z 3) eq_refl).
  - repeat constructor; unfold Qcle; cbn; discriminate.
  - reflexivity.
  - right. unfold Qcle. cbn. discriminate.
  - left. reflexivity.
Defined.

(** X13.  [Playbook.freeze] extends the timeline and leaves what was there
    alone: the new combined scene lasts [duration] longer, shows the frames
    of the old combined scene before the old end, and from the old end on
    shows the last scene's frame at that scene's own duration. *)
Theorem freeze_extends_timeline {D W : Type} (self self' : Playbook.t Qc D W)
    (duration : Qc) (scene : Scene.t Qc (State W D)) :
  Playbook.combined_scene self = Ok scene ->
  Playbook.freeze self duration = Ok self' ->
  exists last_scene scene',
    py_last (Playbook._scenes self) = Ok last_scene
    /\ Playbook.combined_scene self' = Ok scene'
    /\ Scene.duration scene' = (Scene.duration scene + duration)%Qc
    /\ (forall x : Qc, (x < Scene.duration scene)%Qc ->
          Scene.make_frame scene' x = Scene.make_frame scene x)
    /\ (forall x : Qc, (Scene.duration scene <= x)%Qc ->
          Scene.make_frame scene' x
          = Scene.make_frame last_scene (Scene.duration last_scene)).
Proof.
  intros Hscene Hfreeze.
  destruct (combined_scene_ok self scene Hscene) as (first & rest & Es & ->).
  destruct (freeze_ok self self' duration Hfreeze)
    as (last_scene & Hlast & ->).
  exists last_scene,
         (Scene.concat (fold_left Scene.concat rest first)
                       (Scene.freeze last_scene duration)).
  split; [ exact Hlast | split; [ | split; [ reflexivity | split ] ] ].
  - unfold Playbook.combined_scene. cbn [Playbook._scenes]. rewrite Es.
    cbn [app length Nat.ltb Nat.leb py_assert rbind py_index nth_error skipn].
    now rewrite fold_left_app.
  - intros x Hx. rewrite concat_frame. cbn [lt Qc_PyNum].
    apply Qc_ltb_true in Hx. now rewrite Hx.
  - intros x Hx. rewrite concat_frame. cbn [lt Qc_PyNum].
    apply Qc_ltb_false in Hx. now rewrite Hx.
Qed.

Lemma freeze_extends_timeline_witness :
  let self := Playbook.Playbook (T := Qc) (Qc_of_Z 2) [ticking] in
  exists last_scene (scene' : Scene.t Qc (State stage clip)),
    py_last (Playbook._scenes self) = Ok last_scene
    /\ Scene.duration scene' = (Scene.duration ticking + Qc_of_Z 5)%Qc.
Proof.
  intro self.
  destruct (freeze_extends_timeline self _ (Qc_of_Z 5) ticking
              eq_refl eq_refl)
    as (last_scene & scene' & Hlast & _ & Hduration & _).
  now exists last_scene, scene'.
Defined.

(** X14.  [Playbook.play] appends one scene and moves the cursor by its
    duration.  Each frame of that scene sets the time of the drawable to the
    time asked for and returns the drawable itself.  Without a duration the
    scene lasts [_get_drawable_duration(drawable)], which is never
    negative. *)
Theorem play_appends {D S B Canvas Ease W : Type}
    {drawables : Drawable Qc D B Canvas W}
    {finder : FindAnimated Qc D S Ease W}
    (self : Playbook.t Qc D W) (drawable : D) (duration : option Qc) (w : W) :
  exists scene,
    Playbook._scenes (fst (Playbook.play self drawable duration w))
    = Playbook._scenes self ++ [scene]
    /\ Playbook._cursor (fst (Playbook.play self drawable duration w))
       = (Playbook._cursor self + Scene.duration scene)%Qc
    /\ (forall (x : Qc) (w0 : W),
          Scene.make_frame scene x w0
          = (drawable, snd (set_time drawable x w0)))
    /\ (forall d, duration = Some d ->
          Scene.duration scene = d
          /\ snd (Playbook.play self drawable duration w) = w)
    /\ (duration = None ->
          Scene.duration scene = fst (_get_drawable_duration drawable w)
          /\ (0 <= Scene.duration scene)%Qc).
Proof.
  rewrite play_run. cbn [fst snd Playbook._scenes Playbook._cursor].
  eexists. split; [ reflexivity | split; [ reflexivity | split; [ | split ] ] ].
  - intros x w0. unfold Scene.make_frame. cbn [Scene._make_frame].
    rewrite sbind_run. reflexivity.
  - intros d ->. split; reflexivity.
  - intros ->. split; [ reflexivity | ].
    cbn [Scene.duration Scene._duration].
    unfold _get_drawable_duration. rewrite sbind_run. cbn [sret fst].
    apply (running_max (fst (find_all_Animated drawable w)) 0%Qc).
Qed.

Lemma play_appends_witness :
  exists scene,
    Playbook._scenes
      (fst (Playbook.play (Playbook.Playbook 0%Qc []) moving None empty_stage))
    = [] ++ [scene]
    /\ Scene.duration scene
       = fst (_get_drawable_duration moving empty_stage)
    /\ (0 <= Scene.duration scene)%Qc.
Proof.
  destruct (play_appends (Playbook.Playbook 0%Qc []) moving None empty_stage)
    as (scene & Hscenes & _ & _ & _ & Hnone).
  exists scene. split; [ exact Hscenes | exact (Hnone eq_refl) ].
Defined.

(** ** More on rendering *)

(** X16.  When [int(fps * duration)] is not positive, [render] makes no
    frame: it takes its renderer, constructing one if none was given,
    opens the writer and closes it, and never asks the scene for a frame.
    At frame rate 0 that is so whenever [int(fps * duration)] is defined:
    [frame_index / fps] is not reached. *)
Theorem render_nothing {D B Canvas R Wr Img W : Type}
    `{Drawable float D B Canvas W} `{Renderer R D Img W} `{Writer Wr Img W}
    (scene : Scene.t float (State W D)) (filename : string)
    (renderer : option R) (fps : Z) (progress_bar : bool) (w : W)
    (total_frames : Z) :
  rbind (float_of_int fps)
        (fun f => int_of_float (PrimFloat.mul f (Scene.duration scene)))
  = Ok total_frames ->
  (total_frames <= 0)%Z \/ fps = 0%Z ->
  Scene.render scene filename renderer fps progress_bar w
  = (Ok [],
     snd (sbind (spec_before_frames filename renderer fps) writer_exit w)).
Proof.
  intros Hcount Hnone.
  assert (Hempty : py_range total_frames = []).
  { destruct Hnone as [Hle | ->].
    - unfold py_range. now replace (Z.to_nat total_frames) with 0%nat by lia.
    - rewrite float_of_int_0 in Hcount. cbn [rbind] in Hcount.
      apply zero_times in Hcount. now subst total_frames. }
  unfold Scene.render. rewrite Hcount, Hempty, default_renderer.
  unfold spec_before_frames. rewrite !sbind_run.
  destruct (spec_renderer renderer w) as [r w1]. cbn [fst snd].
  destruct (get_writer filename fps w1) as [writer w2].
  cbn [Scene.render_loop fst snd].
  now destruct (writer_exit writer w2) as [[] w4].
Qed.

Lemma render_nothing_witness :
  Scene.render (rolling 2%float) "out.mp4" None 0 true empty_studio
  = (Ok [], Studio 0%float 1 (Raster 0%float "" 0%float) false [])
  /\ Scene.render (rolling 0.01%float) "out.mp4" (Some tt) 60 true
                  empty_studio
     = (Ok [], empty_studio).
Proof.
  split.
  - exact (render_nothing (rolling 2%float) "out.mp4" None 0 true
             empty_studio 0 eq_refl (or_intror eq_refl)).
  - exact (render_nothing (rolling 0.01%float) "out.mp4" (Some tt) 60 true
             empty_studio 0 eq_refl (or_introl (Z.le_refl 0))).
Defined.

(** ** More on the time freezer *)

(** X17.  An access through a [Frozen] does not depend on a time set on the
    child before it, as long as [set_time] on a drawable overwrites the time
    set before: [bounds], [children] and [draw] give the same result and
    leave the same heap with or without the earlier [set_time]. *)
Theorem freezer_overrides_time {T D B Canvas W : Type}
    `{Drawable T D B Canvas W}
    (self : Frozen.t T D) (earlier : T) (canvas : Canvas) (w : W) :
  (forall (d : D) (x x' : T) (w0 : W),
      snd (set_time d x (snd (set_time d x' w0))) = snd (set_time d x w0)) ->
  let disturbed := snd (set_time (Frozen._child self) earlier w) in
  Frozen.bounds self disturbed = Frozen.bounds self w
  /\ Frozen.children self disturbed = Frozen.children self w
  /\ Frozen.draw self canvas disturbed = Frozen.draw self canvas w.
Proof.
  intros Hoverwrite disturbed. subst disturbed.
  unfold Frozen.bounds, Frozen.children, Frozen.draw, Frozen._time_freeze.
  rewrite !sbind_run, !Hoverwrite. repeat split.
Qed.

Lemma freezer_overrides_time_witness :
  let self := Frozen.Frozen moving (Qc_of_Z 3) in
  Frozen.bounds self (snd (set_time moving (Qc_of_Z 1) empty_stage))
  = Frozen.bounds self empty_stage.
Proof.
  intro self.
  apply (freezer_overrides_time self (Qc_of_Z 1) tt empty_stage).
  intros d x x' w0. reflexivity.
Defined.

(** ** From a Typst source to an SVG file *)

Lemma remove_gone (path : string) (fs : Typst.files) :
  Typst.remove path fs path = None.
Proof. unfold Typst.remove. now rewrite String.eqb_refl. Qed.

Lemma write_there (path content : string) (fs : Typst.files) :
  Typst.write path content fs path = Some content.
Proof. unfold Typst.write. now rewrite String.eqb_refl. Qed.

(** X18.  Without the [typst] program on the path, [_create_typst_svg]
    raises [TypstError] before it touches a file, and so does
    [typst_content_to_svg_file] for a content whose SVG is not there yet. *)
Theorem typst_not_installed (env : Typst.Environment)
    (typst_source svg_file : string) (fs : Typst.files) :
  Typst.which env "typst" = false ->
  Typst._create_typst_svg env typst_source svg_file fs
  = (fs, Typst.Failed (Typst.TypstError Typst.not_installed))
  /\ (Typst.exists_
        (Typst.join env (Typst.temp_directory env)
                    (Typst.temp_filename env typst_source ++ ".svg")) fs
      = false ->
        Typst.typst_content_to_svg_file env typst_source fs
        = (fs, inr (Typst.TypstError Typst.not_installed))).
Proof.
  intro Hwhich.
  assert (Hcreate : forall target,
            Typst._create_typst_svg env typst_source target fs
            = (fs, Typst.Failed (Typst.TypstError Typst.not_installed)))
    by (intro target; unfold Typst._create_typst_svg; now rewrite Hwhich).
  split; [ apply Hcreate | ].
  intro Hmissing. unfold Typst.typst_content_to_svg_file.
  now rewrite Hmissing, Hcreate.
Qed.

Lemma typst_not_installed_witness :
  let env := {|
    Typst.which := fun _ => false;
    Typst.splitext := Typst.splitext (demo_environment true);
    Typst.run := Typst.run (demo_environment true);
    Typst._postprocess_typst_svg :=
      Typst._postprocess_typst_svg (demo_environment true);
    Typst.temp_directory := "/tmp";
    Typst.temp_filename := fun _ => "x"%string;
    Typst.join := Typst.join (demo_environment true) |} in
  Typst.typst_content_to_svg_file env "= Title" no_files
  = (no_files, inr (Typst.TypstError Typst.not_installed)).
Proof.
  intro env.
  apply (proj2 (typst_not_installed env "= Title" "/tmp/x.svg" no_files
                  eq_refl)).
  reflexivity.
Defined.

(** X19.  With [typst] installed, [_create_typst_svg] writes the source to
    [root + ".typ"] for the program to read, and removes that file again
    whatever the run does.  When the run does not complete, the file is gone
    when the error comes out, the SVG is not post-processed, and a
    [CalledProcessError] becomes a [TypstError] that carries the program's
    stderr.  When it completes, the post-processing starts on a file system
    that no longer holds the source. *)
Theorem typst_source_is_removed (env : Typst.Environment)
    (typst_source svg_file : string) (fs : Typst.files) :
  Typst.which env "typst" = true ->
  let root := fst (Typst.splitext env svg_file) in
  let source_file := (root ++ ".typ")%string in
  let written := Typst.write source_file typst_source fs in
  let attempt :=
    Typst.run env ["typst"; "compile"; source_file; root ++ ".svg"]%string
              written in
  let cleaned := Typst.remove source_file (fst attempt) in
  written source_file = Some typst_source
  /\ cleaned source_file = None
  /\ (forall stderr,
        snd attempt = Typst.CalledProcessError stderr ->
        Typst._create_typst_svg env typst_source svg_file fs
        = (cleaned, Typst.Failed (Typst.TypstError stderr)))
  /\ (snd attempt <> Typst.Completed ->
        exists e,
          Typst._create_typst_svg env typst_source svg_file fs
          = (cleaned, Typst.Failed e))
  /\ (snd attempt = Typst.Completed ->
        Typst._create_typst_svg env typst_source svg_file fs
        = Typst._postprocess_typst_svg env svg_file cleaned).
Proof.
  intros Hwhich root source_file written attempt cleaned.
  split; [ apply write_there | split; [ apply remove_gone | ] ].
  assert (Hcreate :
            Typst._create_typst_svg env typst_source svg_file fs
            = match snd attempt with
              | Typst.CalledProcessError error_message =>
                  (cleaned, Typst.Failed (Typst.TypstError error_message))
              | Typst.RunFailed what => (cleaned, Typst.Failed (Typst.Other what))
              | Typst.Completed =>
                  Typst._postprocess_typst_svg env svg_file cleaned
              end).
  { unfold Typst._create_typst_svg. rewrite Hwhich. cbn [negb].
    subst cleaned attempt written source_file root.
    destruct (Typst.splitext env svg_file) as [root ext]. cbn [fst].
    destruct (Typst.run env _ _) as [fs' outcome]. reflexivity. }
  rewrite Hcreate. split; [ | split ].
  - intros stderr ->. reflexivity.
  - intro Hfailed. destruct (snd attempt); [ easy | eauto | eauto ].
  - intros ->. reflexivity.
Qed.

Lemma typst_source_is_removed_witness :
  Typst._create_typst_svg (demo_environment false) "= Title" "/tmp/x.svg"
                          no_files
  = (Typst.remove "/tmp/x.typ"
       (Typst.write "/tmp/x.typ" "= Title" no_files),
     Typst.Failed (Typst.TypstError "error: unknown variable")).
Proof.
  exact (proj1 (proj2 (proj2
           (typst_source_is_removed (demo_environment false) "= Title"
              "/tmp/x.svg" no_files eq_refl)))
           "error: unknown variable"%string eq_refl).
Defined.

(** X20.  [typst_content_to_svg_file] names the SVG after the content
    alone, and once a file is at that name it returns the name and does
    nothing else: no program is looked for or run, no file is written,
    whether or not the file there was ever post-processed. *)
Theorem typst_cache (env : Typst.Environment) (content : string) :
  let svg_file :=
    Typst.join env (Typst.temp_directory env)
               (Typst.temp_filename env content ++ ".svg") in
  (forall fs : Typst.files,
      Typst.exists_ svg_file fs = true ->
      Typst.typst_content_to_svg_file env content fs = (fs, inl svg_file))
  /\ (forall (fs fs' : Typst.files) (path : string),
        Typst.typst_content_to_svg_file env content fs = (fs', inl path) ->
        path = svg_file)
  /\ (forall (fs fs' : Typst.files) (answer : string + Typst.error),
        Typst.typst_content_to_svg_file env content fs = (fs', answer) ->
        Typst.exists_ svg_file fs' = true ->
        Typst.typst_content_to_svg_file env content fs' = (fs', inl svg_file)).
Proof.
  intro svg_file.
  assert (Hhit : forall fs : Typst.files,
            Typst.exists_ svg_file fs = true ->
            Typst.typst_content_to_svg_file env content fs
            = (fs, inl svg_file)).
  { intros fs Hthere. unfold Typst.typst_content_to_svg_file.
    fold svg_file. now rewrite Hthere. }
  split; [ exact Hhit | split ].
  - intros fs fs' path. unfold Typst.typst_content_to_svg_file. fold svg_file.
    destruct (negb (Typst.exists_ svg_file fs)).
    + destruct (Typst._create_typst_svg env content svg_file fs)
        as [fs1 [ | e ]]; intro E; now inversion E.
    + intro E. now inversion E.
  - intros fs fs' answer _ Hthere. now apply Hhit.
Qed.

Lemma typst_cache_witness :
  let made :=
    fst (Typst.typst_content_to_svg_file (demo_environment true) "= Title"
                                         no_files) in
  Typst.exists_ "/tmp/x.svg" made = true
  /\ Typst.typst_content_to_svg_file (demo_environment true) "= Title" made
     = (made, inl "/tmp/x.svg"%string).
Proof.
  intro made.
  assert (Hthere : Typst.exists_ "/tmp/x.svg" made = true) by reflexivity.
  split; [ exact Hthere | ].
  exact (proj1 (typst_cache (demo_environment true) "= Title") made Hthere).
Defined.
